(** * Model transcoder scripts: [convert_to_tflite.py] and [convert_vad.py]

    A shallow embedding of the two scripts of the repository.  Both are a
    straight line of library calls around a file system, so the embedding
    is a small state-and-exception monad over a world made of a file
    system and the text printed so far.

    What lies outside the repository is not translated but taken as a
    parameter: the ONNX runtime (does a file load as an inference
    session, and with which tensor descriptors) and the TensorFlow
    tracing and conversion toolchain (does the attempt of lines 62-72
    yield bytes or raise).  The Python standard library calls the scripts
    make ([str.replace], [os.path.dirname], [os.path.exists],
    [os.makedirs], [shutil.copy], [open], [os.path.getsize]) are modelled
    after their CPython definitions.

    Scope of the model:
    - paths are the strings the program passes around and the file system
      is keyed by them: an entry has one name, and there are no symbolic
      or hard links.  For paths in plain spelling ([Str.plain]: relative,
      every component a name other than [.] and [..]) two different
      strings are two different files, as the operating system has it.  A
      path spelled otherwise ([./a], [a//b], [a/../b], [/cwd/a]) is another
      key than its plain spelling, so a statement that concludes from two
      strings being different that a copy goes through is made for plain
      paths.  The empty string stands for the working directory, which
      always exists;
    - [os.path] is [posixpath];
    - the exceptions of the model are instances of Python's [Exception];
      [SystemExit], which [sys.exit] raises, is kept apart, as
      [except Exception] does not catch it;
    - the import prologue of both scripts (lines 1-11) is assumed to have
      succeeded; the standard error stream is not modelled. *)

From stdpp Require Import gmap strings list.
From Stdlib Require Import Strings.Ascii Strings.Byte ZArith Lia.

(** ** Strings and paths *)

Module Str.

(** [s.startswith(p)]. *)
Definition startswith (p s : string) : bool := String.prefix p s.

(** The scan of [str.replace] for a non-empty pattern: [skip]
    characters of a match just replaced are still to be dropped. *)
Fixpoint replace_from (old new : string) (skip : nat) (s : string) : string :=
  match s with
  | EmptyString => EmptyString
  | String c s' =>
      match skip with
      | S k => replace_from old new k s'
      | O =>
          if startswith old s
          then new +:+ replace_from old new (String.length old - 1) s'
          else String c (replace_from old new 0 s')
      end
  end.

(** With an empty pattern Python puts [new] before every character and
    at the end. *)
Fixpoint intersperse (new s : string) : string :=
  match s with
  | EmptyString => new
  | String c s' => new +:+ String c (intersperse new s')
  end.

(** [s.replace(old, new)]: every non-overlapping occurrence of [old],
    found from the left, becomes [new]. *)
Definition replace (old new s : string) : string :=
  match old with
  | EmptyString => intersperse new s
  | String _ _ => replace_from old new 0 s
  end.

(** [old] occurs in [s] as a substring. *)
Definition occurs (old s : string) : Prop :=
  exists pre post, s = pre +:+ old +:+ post.

Definition is_slash (c : ascii) : bool := Ascii.eqb c "/"%char.

(** [(p[:i], p[i:])] for [i = p.rfind('/') + 1]. *)
Fixpoint rsplit_slash (p : string) : string * string :=
  match p with
  | EmptyString => (EmptyString, EmptyString)
  | String c p' =>
      match rsplit_slash p' with
      | (EmptyString, t) =>
          if is_slash c then (String c EmptyString, t) else (EmptyString, String c t)
      | (h, t) => (String c h, t)
      end
  end.

(** [s.rstrip('/')]. *)
Fixpoint rstrip_slash (s : string) : string :=
  match s with
  | EmptyString => EmptyString
  | String c s' =>
      match rstrip_slash s' with
      | EmptyString => if is_slash c then EmptyString else String c EmptyString
      | r => String c r
      end
  end.

(** [posixpath.split]: the head loses its trailing slashes unless it
    consists of slashes only. *)
Definition split (p : string) : string * string :=
  let (head, tail) := rsplit_slash p in
  match rstrip_slash head with
  | EmptyString => (head, tail)
  | h => (h, tail)
  end.

Definition dirname (p : string) : string := fst (split p).
Definition basename (p : string) : string := snd (rsplit_slash p).

(** The character [c] does not occur in [s]. *)
Fixpoint lacks (c : ascii) (s : string) : bool :=
  match s with
  | EmptyString => true
  | String a s' => negb (Ascii.eqb a c) && lacks c s'
  end.

(** [s.endswith('/')]. *)
Fixpoint ends_with_slash (s : string) : bool :=
  match s with
  | EmptyString => false
  | String c EmptyString => is_slash c
  | String _ s' => ends_with_slash s'
  end.

(** [posixpath.join(a, b)]. *)
Definition join (a b : string) : string :=
  if startswith "/" b then b
  else match a with
       | EmptyString => b
       | _ => if ends_with_slash a then a +:+ b else a +:+ "/" +:+ b
       end.

(** The components of a path: what stands between its slashes. *)
Fixpoint components (p : string) : list string :=
  match p with
  | EmptyString => [EmptyString]
  | String c p' =>
      if is_slash c then EmptyString :: components p'
      else match components p' with
           | [] => [String c EmptyString]
           | h :: t => String c h :: t
           end
  end.

(** A component that names an entry: not empty, not [.], not [..]. *)
Definition is_name (c : string) : bool :=
  negb (String.eqb c "") && negb (String.eqb c ".") && negb (String.eqb c "..").

(** A path in plain spelling: relative, without a doubled or trailing
    slash, without [.] and [..].  Such a path has no other spelling. *)
Definition plain (p : string) : bool := forallb is_name (components p).

End Str.

(** ** The world: a file system and the standard output *)

Inductive node :=
| File (content : list byte)
| Dir.

(** Instances of Python's [Exception] that the modelled calls raise.
    The four [OSError]s and [SameFileError] come from the standard
    library, [IndexError] from indexing an empty list, and the last two
    stand for whatever the ONNX runtime and the TensorFlow toolchain
    raise, with its message. *)
Inductive exn :=
| FileNotFoundError (p : string)
| IsADirectoryError (p : string)
| NotADirectoryError (p : string)
| FileExistsError (p : string)
| SameFileError (src dst : string)
| IndexError
| OnnxRuntimeError (msg : string)
| ToolchainError (msg : string).

(** What unwinds the stack: an [Exception], or the [SystemExit] of
    [sys.exit], which derives from [BaseException] only. *)
Inductive raised :=
| Exception (e : exn)
| SystemExit (code : Z).

(** Tensor descriptors of an inference session. *)
Inductive dim :=
| DimInt (n : Z)
| DimSym (s : string)
| DimNone.

Record NodeArg := { name : string; shape : list dim; type : string }.

Record Session := { get_inputs : list NodeArg; get_outputs : list NodeArg }.

(** A printed line.  Literal text and text with a path or a name put in
    is kept as the string; the three kinds of line whose rendering is
    Python's own ([str] of an exception, [repr] of a shape, a size
    divided by 1024 and rounded to one decimal) keep the value printed.
    The size of a directory is the platform's business: [None]. *)
Inductive line :=
| Text (s : string)
| ShapeLine (sh : list dim)
| FailureLine (prefix : string) (e : exn)
| SizeLine (prefix : string) (size : option nat).

Record World := { fs : gmap string node; stdout : list line }.

Inductive result (A : Type) :=
| Ret (a : A)
| Raise (r : raised).
Arguments Ret {A} a.
Arguments Raise {A} r.

(** A computation over a state [S] runs from a state to a result and the
    state it leaves; when it raises, the state is the one at the point of
    the raise. *)
Definition ST (S A : Type) : Type := S -> result A * S.

Definition ret {S A} (a : A) : ST S A := fun s => (Ret a, s).

Definition raise {S A} (e : exn) : ST S A := fun s => (Raise (Exception e), s).

Definition bind {S A B} (m : ST S A) (k : A -> ST S B) : ST S B :=
  fun s =>
    match m s with
    | (Ret a, s') => k a s'
    | (Raise r, s') => (Raise r, s')
    end.

Notation "'let*' x ':=' m 'in' k" := (bind m (fun x => k))
  (at level 10, x name, m at level 100, k at level 200).
Notation "m '>>' k" := (bind m (fun _ => k))
  (at level 100, k at level 200, right associativity).

(** [try: body / except <those selected by catches> as e: handler e].
    A [SystemExit] passes through. *)
Definition try_except {S A} (body : ST S A) (catches : exn -> bool) (handler : exn -> ST S A)
  : ST S A :=
  fun s =>
    match body s with
    | (Raise (Exception e), s') =>
        if catches e then handler e s' else (Raise (Exception e), s')
    | r => r
    end.

(** [except Exception]: every exception of the model. *)
Definition any_Exception (e : exn) : bool := true.

Definition is_FileExistsError (e : exn) : bool :=
  match e with FileExistsError _ => true | _ => false end.

(** [except OSError]. *)
Definition is_OSError (e : exn) : bool :=
  match e with
  | FileNotFoundError _ | IsADirectoryError _ | NotADirectoryError _
  | FileExistsError _ | SameFileError _ _ => true
  | _ => false
  end.

(** [sys.exit(code)]. *)
Definition sys_exit {S A} (code : Z) : ST S A := fun s => (Raise (SystemExit code), s).

Definition get {S} : ST S S := fun s => (Ret s, s).

Definition put {S} (s : S) : ST S unit := fun _ => (Ret tt, s).

Definition lift {S A} (r : exn + A) : ST S A :=
  match r with
  | inl e => raise e
  | inr a => ret a
  end.

(** Calls that act on the file system alone, and the script, which also
    prints. *)
Definition F (A : Type) : Type := ST (gmap string node) A.

Definition M (A : Type) : Type := ST World A.

(** A file system call made by the script. *)
Definition on_fs {A} (c : F A) : M A :=
  fun w => let (r, m') := c (fs w) in (r, {| fs := m'; stdout := stdout w |}).

(** [print(l)]. *)
Definition print (l : line) : M unit :=
  fun w => (Ret tt, {| fs := fs w; stdout := stdout w ++ [l] |}).

(** The newline that starts several of the printed strings. *)
Definition nl : string := String (ascii_of_nat 10) EmptyString.

(** ** The standard library calls *)

Module FS.

(** [os.path.exists(p)]. *)
Definition path_exists (m : gmap string node) (p : string) : bool :=
  match m !! p with
  | Some _ => true
  | None => false
  end.

(** [os.path.isdir(p)]. *)
Definition isdir (m : gmap string node) (p : string) : bool :=
  match m !! p with
  | Some Dir => true
  | _ => false
  end.

(** Looking up from a directory [d] that does not exist: is the nearest
    entry above it a regular file?  The walk is on the directory part,
    which is shorter than the path; [fuel] counts it down. *)
Fixpoint file_above (fuel : nat) (m : gmap string node) (d : string) : bool :=
  match m !! d with
  | Some (File _) => true
  | Some Dir => false
  | None =>
      match fuel with
      | O => false
      | S fuel' =>
          match Str.dirname d with
          | EmptyString => false
          | d' => file_above fuel' m d'
          end
      end
  end.

(** Resolving the directory part of [p], as every call that creates an
    entry at [p] does first.  A path with no directory part lives in the
    working directory.  A directory part that does not resolve gives
    [ENOTDIR] when a regular file stands on the way to it and [ENOENT]
    when the way just ends. *)
Definition resolve_parent (m : gmap string node) (p : string) : exn + unit :=
  match Str.dirname p with
  | EmptyString => inr tt
  | d =>
      match m !! d with
      | Some Dir => inr tt
      | Some (File _) => inl (NotADirectoryError p)
      | None =>
          if file_above (String.length d) m d then inl (NotADirectoryError p)
          else inl (FileNotFoundError p)
      end
  end.

(** [open(p, 'rb').read()]. *)
Definition read_file (m : gmap string node) (p : string) : exn + list byte :=
  match m !! p with
  | Some (File b) => inr b
  | Some Dir => inl (IsADirectoryError p)
  | None => inl (FileNotFoundError p)
  end.

(** [open(p, 'wb').write(data)]: creates or truncates the file. *)
Definition write_file (m : gmap string node) (p : string) (data : list byte)
  : exn + gmap string node :=
  match p with
  | EmptyString => inl (FileNotFoundError p)
  | _ =>
      match resolve_parent m p with
      | inl e => inl e
      | inr _ =>
          match m !! p with
          | Some Dir => inl (IsADirectoryError p)
          | _ => inr (<[p := File data]> m)
          end
      end
  end.

(** [os.mkdir(p)]. *)
Definition mkdir (m : gmap string node) (p : string) : exn + gmap string node :=
  match p with
  | EmptyString => inl (FileNotFoundError p)
  | _ =>
      match resolve_parent m p with
      | inl e => inl e
      | inr _ =>
          match m !! p with
          | Some _ => inl (FileExistsError p)
          | None => inr (<[p := Dir]> m)
          end
      end
  end.

(** [os.path.getsize(p)]. *)
Definition getsize (m : gmap string node) (p : string) : exn + option nat :=
  match m !! p with
  | Some (File b) => inr (Some (length b))
  | Some Dir => inr None
  | None => inl (FileNotFoundError p)
  end.

(** [os.path.samefile(a, b)] guarded as in [shutil._samefile]: [False]
    when either path cannot be examined.  An entry of this file system
    has one name, so two paths are the same file when they are the same
    string; that is the answer of the operating system for paths in
    plain spelling ([Str.plain]). *)
Definition samefile (m : gmap string node) (a b : string) : bool :=
  path_exists m a && path_exists m b && bool_decide (a = b).

End FS.

Definition path_exists (p : string) : F bool :=
  let* m := get in ret (FS.path_exists m p).

Definition isdir (p : string) : F bool :=
  let* m := get in ret (FS.isdir m p).

Definition read_file (p : string) : F (list byte) :=
  let* m := get in lift (FS.read_file m p).

Definition write_file (p : string) (data : list byte) : F unit :=
  let* m := get in
  let* m' := lift (FS.write_file m p data) in
  put m'.

Definition mkdir (p : string) : F unit :=
  let* m := get in
  let* m' := lift (FS.mkdir m p) in
  put m'.

Definition getsize (p : string) : F (option nat) :=
  let* m := get in lift (FS.getsize m p).

(** [shutil.copyfile(src, dst)]. *)
Definition copyfile (src dst : string) : F unit :=
  let* m := get in
  if FS.samefile m src dst then raise (SameFileError src dst)
  else
    let* data := read_file src in
    write_file dst data.

(** [shutil.copy(src, dst)]: a directory as destination receives the
    file under the source's base name.  The permission bits that
    [copymode] carries over are not part of the world. *)
Definition shutil_copy (src dst : string) : F string :=
  let* d := isdir dst in
  let dst := if d then Str.join dst (Str.basename src) else dst in
  copyfile src dst >>
  ret dst.

(** The last step of [os.makedirs(name, exist_ok=True)]:
    [try: mkdir(name) / except OSError: if not path.isdir(name): raise]. *)
Definition mkdir_exist_ok (name : string) : F unit :=
  try_except (mkdir name) is_OSError
    (fun e => let* d := isdir name in if d then ret tt else raise e).

(** [os.makedirs(name, exist_ok=True)].  The recursion is on the head of
    the path, which is shorter than the path; [fuel] counts it down. *)
Fixpoint makedirs_rec (fuel : nat) (name : string) : F unit :=
  let (head0, tail0) := Str.split name in
  let (head, tail) :=
    match tail0 with
    | EmptyString => Str.split head0
    | _ => (head0, tail0)
    end in
  match head, tail, fuel with
  | String _ _, String _ _, S fuel' =>
      let* e := path_exists head in
      if negb e then
        try_except (makedirs_rec fuel' head) is_FileExistsError (fun _ => ret tt) >>
        if bool_decide (tail = ".") then ret tt else mkdir_exist_ok name
      else mkdir_exist_ok name
  | _, _, _ => mkdir_exist_ok name
  end.

Definition makedirs (name : string) : F unit :=
  makedirs_rec (String.length name) name.

(** ** The two scripts *)

Section Scripts.

(** The ONNX runtime on the bytes of a model file: the session it
    builds, or the exception it raises. *)
Variable onnx_load : list byte -> exn + Session.

(** The TensorFlow side of lines 62-72 of [convert_to_tflite.py]:
    wrapping the session, building the wrapper for the given input shape,
    tracing [call] at that shape and running the converter with the
    default optimisations.  The converted model, or the exception. *)
Variable tflite_convert : Session -> string -> string -> list Z -> exn + list byte.

(** [InferenceSession(path)]. *)
Definition InferenceSession (path : string) : F Session :=
  let* m := get in
  match m !! path with
  | Some (File b) => lift (onnx_load b)
  | Some Dir => raise (OnnxRuntimeError "not a model file")
  | None => raise (OnnxRuntimeError "no such file")
  end.

(** [l[0]]. *)
Definition first {S A} (l : list A) : ST S A :=
  match l with
  | x :: _ => ret x
  | [] => raise IndexError
  end.

(** A [for] loop whose body only acts on the state. *)
Fixpoint for_each {S A} (l : list A) (body : A -> ST S unit) : ST S unit :=
  match l with
  | [] => ret tt
  | x :: l' => body x >> for_each l' body
  end.

Definition final_output : string := "speech_world/assets/models/silero_vad.onnx".

(** The body of the [try] (lines 61-79). *)
Definition conversion_attempt (session : Session) (input_name output_name output_path : string)
  : M unit :=
  let* tflite_model := lift (tflite_convert session input_name output_name [1; 1; 256; 1]%Z) in
  print (Text ("Saving TFLite model to: " +:+ output_path)) >>
  on_fs (write_file output_path tflite_model) >>
  print (Text "Model converted successfully!") >>
  let* size := on_fs (getsize output_path) in
  print (SizeLine "Output size: " size).

(** The body of the [except] (lines 82-95). *)
Definition fallback_copy (input_path output_path : string) (e : exn) : M unit :=
  print (FailureLine "TFLite conversion failed: " e) >>
  print (Text (nl +:+ "Falling back to ONNX format...")) >>
  let onnx_output := Str.replace ".tflite" ".onnx" output_path in
  on_fs (shutil_copy input_path onnx_output) >>
  print (Text ("Copied ONNX model to: " +:+ onnx_output)) >>
  on_fs (makedirs (Str.dirname final_output)) >>
  on_fs (shutil_copy input_path final_output) >>
  print (Text ("Also copied to: " +:+ final_output)).

(** [convert_to_tflite(input_path, output_path)] of
    [convert_to_tflite.py]. *)
Definition convert_to_tflite (input_path output_path : string) : M unit :=
  print (Text ("Loading ONNX model from: " +:+ input_path)) >>
  let* session := on_fs (InferenceSession input_path) in
  let* inp := first (get_inputs session) in
  let input_name := name inp in
  let* out := first (get_outputs session) in
  let output_name := name out in
  print (Text ("Input: " +:+ input_name +:+ ", Output: " +:+ output_name)) >>
  print (Text (nl +:+ "Trying to trace model for TFLite conversion...")) >>
  print (Text (nl +:+ "=== Alternative Approach ===")) >>
  print (Text "Since TFLite conversion requires fixed input shape,") >>
  print (Text "we have two options:") >>
  print (Text "1. Use onnxruntime_flutter package in Flutter (recommended)") >>
  print (Text "2. Try TFLite with dynamic shapes") >>
  print (Text (nl +:+ "Trying TFLite conversion with dynamic shapes...")) >>
  try_except
    (conversion_attempt session input_name output_name output_path)
    any_Exception
    (fallback_copy input_path output_path).

(** The [__main__] block of [convert_to_tflite.py]. *)
Definition convert_to_tflite_main : M unit :=
  let input_file := "silero_vad.onnx" in
  let output_file := "silero_vad.tflite" in
  let* found := on_fs (path_exists input_file) in
  (if negb found
   then print (Text ("Error: " +:+ input_file +:+ " not found!")) >> sys_exit 1
   else ret tt) >>
  convert_to_tflite input_file output_file.

Definition print_node_arg (a : NodeArg) : M unit :=
  print (Text ("  Name: " +:+ name a)) >>
  print (ShapeLine (shape a)) >>
  print (Text ("  Type: " +:+ type a)).

(** [inspect_model(input_path)] of [convert_vad.py]. *)
Definition inspect_model (input_path : string) : M unit :=
  print (Text ("Loading ONNX model from: " +:+ input_path)) >>
  let* session := on_fs (InferenceSession input_path) in
  print (Text (nl +:+ "=== Model Inputs ===")) >>
  for_each (get_inputs session) print_node_arg >>
  print (Text (nl +:+ "=== Model Outputs ===")) >>
  for_each (get_outputs session) print_node_arg >>
  print (Text (nl +:+ "=== Model Ready ===")) >>
  print (Text "The model is valid and can be used with onnxruntime!") >>
  let output_path := Str.replace ".onnx" "_model.onnx" input_path in
  on_fs (shutil_copy input_path output_path) >>
  print (Text (nl +:+ "Model copied to: " +:+ output_path)) >>
  let* size := on_fs (getsize output_path) in
  print (SizeLine "Size: " size).

(** The [__main__] block of [convert_vad.py]. *)
Definition convert_vad_main : M unit :=
  let input_file := "silero_vad.onnx" in
  let* found := on_fs (path_exists input_file) in
  (if negb found
   then print (Text ("Error: " +:+ input_file +:+ " not found!")) >> sys_exit 1
   else ret tt) >>
  inspect_model input_file.

End Scripts.

(** ** Running a script as a process *)

(** The exit status of the interpreter: 0 when the script runs off its
    end, the code of [sys.exit], and 1 after an uncaught exception. *)
Definition exit_status {A} (r : result A) : Z :=
  match r with
  | Ret _ => 0
  | Raise (SystemExit code) => code
  | Raise (Exception _) => 1
  end.

(** A process starts on a file system with nothing printed yet. *)
Definition start (m : gmap string node) : World := {| fs := m; stdout := [] |}.

(** The two outcomes the specification names, told apart by what the
    script prints last on each branch. *)
Definition reports_Converted (w : World) : Prop :=
  Text "Model converted successfully!" ∈ stdout w.

Definition reports_FallbackCopied (w : World) : Prop :=
  Text ("Also copied to: " +:+ final_output) ∈ stdout w.

(** The failure reason has been printed. *)
Definition reports_failure (e : exn) (w : World) : Prop :=
  FailureLine "TFLite conversion failed: " e ∈ stdout w.

(** ** Sample sessions, toolchains and file systems *)

(** A voice-activity model whose input length is dynamic. *)
Definition vad_session : Session :=
  {| get_inputs :=
       [ {| name := "input"; shape := [DimNone; DimNone]; type := "tensor(float)" |} ];
     get_outputs :=
       [ {| name := "output"; shape := [DimNone; DimInt 1]; type := "tensor(float)" |} ] |}.

(** A runtime that loads every file as that session, and one that loads
    none. *)
Definition load_vad (b : list byte) : exn + Session := inr vad_session.

Definition load_nothing (b : list byte) : exn + Session :=
  inl (OnnxRuntimeError "INVALID_PROTOBUF").

(** A toolchain whose tracing fails, as it does when the wrapper asks a
    symbolic tensor for its value, and one that converts. *)
Definition convert_never (s : Session) (i o : string) (sh : list Z) : exn + list byte :=
  inl (ToolchainError "cannot trace a symbolic tensor").

Definition convert_always (s : Session) (i o : string) (sh : list Z) : exn + list byte :=
  inr [x54; x46; x4c; x33]%byte.

Definition model_bytes : list byte := [x08; x07; x12; x07]%byte.

(** The working directory with the model file in it and nothing else. *)
Definition model_only : gmap string node := {[ "silero_vad.onnx" := File model_bytes ]}.

(** ** Vocabulary of the statements *)

Definition add_lines (w : World) (ls : list line) : World :=
  {| fs := fs w; stdout := stdout w ++ ls |}.

(** What [convert_to_tflite] prints before it enters the [try]. *)
Definition prologue (input_path input_name output_name : string) : list line :=
  [ Text ("Loading ONNX model from: " +:+ input_path);
    Text ("Input: " +:+ input_name +:+ ", Output: " +:+ output_name);
    Text (nl +:+ "Trying to trace model for TFLite conversion...");
    Text (nl +:+ "=== Alternative Approach ===");
    Text "Since TFLite conversion requires fixed input shape,";
    Text "we have two options:";
    Text "1. Use onnxruntime_flutter package in Flutter (recommended)";
    Text "2. Try TFLite with dynamic shapes";
    Text (nl +:+ "Trying TFLite conversion with dynamic shapes...") ].

(** Step 1 goes through: the file at [path] holds [b], the runtime
    loads it as [s], and [s] has a first input [i] and a first output
    [o]. *)
Record loads (onnx_load : list byte -> exn + Session) (m : gmap string node)
    (path : string) (b : list byte) (s : Session) (i o : NodeArg) : Prop :=
  { loads_file : m !! path = Some (File b);
    loads_session : onnx_load b = inr s;
    loads_input : get_inputs s !! 0 = Some i;
    loads_output : get_outputs s !! 0 = Some o }.

(** Step 1 raises [e] although something exists at [path]: it is a
    directory, the runtime rejects the bytes, or the session lacks an
    input or an output to index. *)
Inductive step1_raises (onnx_load : list byte -> exn + Session) (m : gmap string node)
    (path : string) : exn -> Prop :=
| step1_directory :
    m !! path = Some Dir ->
    step1_raises onnx_load m path (OnnxRuntimeError "not a model file")
| step1_rejected b e :
    m !! path = Some (File b) -> onnx_load b = inl e ->
    step1_raises onnx_load m path e
| step1_no_input b s :
    m !! path = Some (File b) -> onnx_load b = inr s -> get_inputs s = [] ->
    step1_raises onnx_load m path IndexError
| step1_no_output b s i :
    m !! path = Some (File b) -> onnx_load b = inr s ->
    get_inputs s !! 0 = Some i -> get_outputs s = [] ->
    step1_raises onnx_load m path IndexError.

(** The conversion attempt raises [e]: the toolchain does, or it yields
    a model that cannot be written at the output path. *)
Inductive attempt_raises
    (tflite_convert : Session -> string -> string -> list Z -> exn + list byte)
    (m : gmap string node) (s : Session) (i o : NodeArg) (output_path : string)
  : exn -> Prop :=
| raises_toolchain e :
    tflite_convert s (name i) (name o) [1; 1; 256; 1]%Z = inl e ->
    attempt_raises tflite_convert m s i o output_path e
| raises_write t e :
    tflite_convert s (name i) (name o) [1; 1; 256; 1]%Z = inr t ->
    FS.write_file m output_path t = inl e ->
    attempt_raises tflite_convert m s i o output_path e.

(** What [inspect_model] prints for a list of tensor descriptors, and
    everything it prints before it copies. *)
Definition descriptor_lines (l : list NodeArg) : list line :=
  flat_map (fun a => [ Text ("  Name: " +:+ name a);
                       ShapeLine (shape a);
                       Text ("  Type: " +:+ type a) ]) l.

Definition inspection_lines (input_path : string) (s : Session) : list line :=
  [ Text ("Loading ONNX model from: " +:+ input_path);
    Text (nl +:+ "=== Model Inputs ===") ] ++
  descriptor_lines (get_inputs s) ++
  [ Text (nl +:+ "=== Model Outputs ===") ] ++
  descriptor_lines (get_outputs s) ++
  [ Text (nl +:+ "=== Model Ready ===");
    Text "The model is valid and can be used with onnxruntime!" ].

(** Where [shutil.copy(src, dst)] writes. *)
Definition copy_target (m : gmap string node) (src dst : string) : string :=
  if FS.isdir m dst then Str.join dst (Str.basename src) else dst.

(** What the fallback branch prints first. *)
Definition fallback_lines (e : exn) : list line :=
  [ FailureLine "TFLite conversion failed: " e;
    Text (nl +:+ "Falling back to ONNX format...") ].

(** Every entry lives in a directory that exists: its directory part,
    when there is one, is a directory of the file system.  File systems
    are like that; the map that models them need not be. *)
Definition well_formed (m : gmap string node) : Prop :=
  forall p n, m !! p = Some n -> FS.resolve_parent m p = inr tt.

(** Directories stay: nothing the branch calls removes or overwrites
    one. *)
Definition grows (m m' : gmap string node) : Prop :=
  forall p, m !! p = Some Dir -> m' !! p = Some Dir.

(** The sibling path of the fallback copy. *)
Definition sibling (output_path : string) : string :=
  Str.replace ".tflite" ".onnx" output_path.

(** The file system calls of the fallback branch, without its printing. *)
Definition fallback_calls (input_path output_path : string) : F unit :=
  shutil_copy input_path (sibling output_path) >>
  makedirs (Str.dirname final_output) >>
  shutil_copy input_path final_output >>
  ret tt.

(** A file can be created or overwritten at [p]. *)
Definition writable (m : gmap string node) (p : string) : Prop :=
  p <> EmptyString /\ FS.resolve_parent m p = inr tt /\ m !! p <> Some Dir.

(** The three directories [os.makedirs] has to provide. *)
Definition dir_root : string := "speech_world".
Definition dir_assets : string := "speech_world/assets".
Definition dir_models : string := "speech_world/assets/models".

Definition asset_dirs : list string := [ dir_root; dir_assets; dir_models ].

(** No regular file stands where an asset directory must be. *)
Definition asset_dirs_free (m : gmap string node) : Prop :=
  forall p b, p ∈ asset_dirs -> m !! p <> Some (File b).

(** The file system [os.makedirs] leaves when called on the directory
    of [final_output]. *)
Definition assets_made (m : gmap string node) : gmap string node :=
  snd (makedirs (Str.dirname final_output) m).

(** What the fallback branch needs from the file system for its two
    copies and its directory creation to go through: the source is
    neither destination, the sibling path can be written, the asset path
    is not a directory, and no regular file (the sibling included) stands
    where an asset directory must be. *)
Record fallback_can_copy (m : gmap string node) (input_path output_path : string) : Prop :=
  { source_not_sibling : sibling output_path <> input_path;
    source_not_asset : input_path <> final_output;
    sibling_writable : writable m (sibling output_path);
    asset_not_dir : m !! final_output <> Some Dir;
    dirs_free : asset_dirs_free m;
    sibling_not_asset_dir : sibling output_path ∉ asset_dirs }.

(** The file system a completed fallback leaves. *)
Definition fallback_result (m : gmap string node) (output_path : string) (b : list byte)
  : gmap string node :=
  <[final_output := File b]> (assets_made (<[sibling output_path := File b]> m)).



(** Replacing every occurrence, as a relation: [t] is [s] with every
    occurrence of [old], met from the left, replaced by [new]. *)
Inductive Replaced (old new : string) : string -> string -> Prop :=
| Replaced_end : Replaced old new EmptyString EmptyString
| Replaced_hit s t :
    Replaced old new s t -> Replaced old new (old +:+ s) (new +:+ t)
| Replaced_keep c s t :
    Str.startswith old (String c s) = false ->
    Replaced old new s t -> Replaced old new (String c s) (String c t).


(** ** What the scripts do to the file system *)

(** The two ways an entry comes to be: [open(p, 'wb')] creates or
    overwrites the file at a path of [W], [os.mkdir] creates the
    directory at a free path of [D].  Both need the directory part of the
    path to exist. *)
Inductive fs_step (W D : string -> Prop) (m : gmap string node) : gmap string node -> Prop :=
| fs_step_write p d :
    W p -> writable m p -> fs_step W D m (<[p := File d]> m)
| fs_step_mkdir p :
    D p -> p <> EmptyString -> FS.resolve_parent m p = inr tt -> m !! p = None ->
    fs_step W D m (<[p := Dir]> m).

(** Any number of such steps. *)
Definition fs_steps (W D : string -> Prop) : relation (gmap string node) :=
  rtc (fs_step W D).

(** A computation whose state holds a file system, reached through
    [proj], changes it by such steps only, whether it returns or
    raises. *)
Definition acts {S A} (proj : S -> gmap string node) (W D : string -> Prop) (c : ST S A)
  : Prop :=
  forall s r s', c s = (r, s') -> fs_steps W D (proj s) (proj s').

(** The two paths [shutil.copy(src, dst)] may write. *)
Definition copy_targets (src dst : string) : list string :=
  [ dst; Str.join dst (Str.basename src) ].

(** The paths [convert_to_tflite] may write a file at: the output path,
    and, the source apart, the targets of its two copies. *)
Definition transcode_writes (input_path output_path p : string) : Prop :=
  p = output_path \/
  (p <> input_path /\
   (p ∈ copy_targets input_path (sibling output_path) \/
    p ∈ copy_targets input_path final_output)).

(** The paths [inspect_model] may write a file at. *)
Definition inspect_writes (input_path p : string) : Prop :=
  p <> input_path /\
  p ∈ copy_targets input_path (Str.replace ".onnx" "_model.onnx" input_path).

Definition is_asset_dir (p : string) : Prop := p ∈ asset_dirs.

Definition nowhere (p : string) : Prop := False.

(** Nothing is removed and nothing changes kind: a directory stays a
    directory, a file stays a file (its bytes may change). *)
Definition persists (m m' : gmap string node) : Prop :=
  forall p n, m !! p = Some n ->
    match n with
    | Dir => m' !! p = Some Dir
    | File _ => exists b', m' !! p = Some (File b')
    end.


(** Two more working directories: a model whose name has no [.onnx],
    and a model named after its output. *)
Definition bin_only : gmap string node := {[ "vad.bin" := File model_bytes ]}.

Definition named_model_only : gmap string node := {[ "model.onnx" := File model_bytes ]}.

(** * Properties *)

(** ** Running a computation *)

Create HintDb run_db.
#[local] Hint Unfold bind ret raise lift get put print sys_exit on_fs
  path_exists isdir read_file write_file mkdir getsize : run_db.

Ltac run := repeat autounfold with run_db; simpl.

Lemma bind_Ret {S A B} (m : ST S A) (k : A -> ST S B) s a s' :
  m s = (Ret a, s') -> bind m k s = k a s'.
Proof. intros H. unfold bind. now rewrite H. Qed.

Lemma bind_Raise {S A B} (m : ST S A) (k : A -> ST S B) s r s' :
  m s = (Raise r, s') -> bind m k s = (Raise r, s').
Proof. intros H. unfold bind. now rewrite H. Qed.

(** ** The file system calls *)

Lemma write_file_writable m p d :
  writable m p -> FS.write_file m p d = inr (<[p := File d]> m).
Proof.
  intros (Hne & Hpar & Hdir). unfold FS.write_file.
  destruct p as [|c p']; [done|]. rewrite Hpar.
  destruct (m !! String c p') as [[|]|]; congruence.
Qed.

Lemma write_file_inr m p d m' :
  FS.write_file m p d = inr m' -> writable m p /\ m' = <[p := File d]> m.
Proof.
  unfold FS.write_file, writable. destruct p as [|c p']; [done|].
  destruct (FS.resolve_parent m (String c p')) as [e|[]]; [done|].
  destruct (m !! String c p') as [[|]|] eqn:E; intros [= <-]; repeat split; congruence.
Qed.

Lemma write_file_run p d m :
  write_file p d m =
  match FS.write_file m p d with
  | inl e => (Raise (Exception e), m)
  | inr m' => (Ret tt, m')
  end.
Proof. run. destruct (FS.write_file m p d); reflexivity. Qed.

Lemma copyfile_run src dst m :
  copyfile src dst m =
  if FS.samefile m src dst then (Raise (Exception (SameFileError src dst)), m)
  else match FS.read_file m src with
       | inl e => (Raise (Exception e), m)
       | inr data =>
           match FS.write_file m dst data with
           | inl e => (Raise (Exception e), m)
           | inr m' => (Ret tt, m')
           end
       end.
Proof.
  unfold copyfile. run.
  destruct (FS.samefile m src dst); [reflexivity|].
  destruct (FS.read_file m src) as [e|data]; simpl; [reflexivity|].
  destruct (FS.write_file m dst data); reflexivity.
Qed.

(** Where [shutil.copy] puts the file. *)
Lemma shutil_copy_run src dst m :
  shutil_copy src dst m =
  let dst' := if FS.isdir m dst then Str.join dst (Str.basename src) else dst in
  match copyfile src dst' m with
  | (Ret _, m') => (Ret dst', m')
  | (Raise r, m') => (Raise r, m')
  end.
Proof.
  unfold shutil_copy. run.
  destruct (copyfile _ _ m) as [[[]|r] m']; reflexivity.
Qed.

Lemma mkdir_is_OSError m p e : FS.mkdir m p = inl e -> is_OSError e = true.
Proof.
  unfold FS.mkdir, FS.resolve_parent. destruct p; [now intros [= <-]|].
  repeat case_match; intros ?; simplify_eq; reflexivity.
Qed.

Lemma mkdir_exist_ok_run p m :
  mkdir_exist_ok p m =
  match FS.mkdir m p with
  | inr m' => (Ret tt, m')
  | inl e => if FS.isdir m p then (Ret tt, m) else (Raise (Exception e), m)
  end.
Proof.
  unfold mkdir_exist_ok, try_except. run.
  destruct (FS.mkdir m p) as [e|m'] eqn:E; simpl; [|reflexivity].
  rewrite (mkdir_is_OSError _ _ _ E). destruct (FS.isdir m p); reflexivity.
Qed.

Lemma makedirs_assets_unfold m :
  makedirs (Str.dirname final_output) m =
  if FS.path_exists m dir_assets then mkdir_exist_ok dir_models m
  else
    match (if FS.path_exists m dir_root then mkdir_exist_ok dir_assets m
           else match mkdir_exist_ok dir_root m with
                | (Ret _, m1) => mkdir_exist_ok dir_assets m1
                | (Raise (Exception (FileExistsError _)), m1) => mkdir_exist_ok dir_assets m1
                | r => r
                end) with
    | (Ret _, m2) => mkdir_exist_ok dir_models m2
    | (Raise (Exception (FileExistsError _)), m2) => mkdir_exist_ok dir_models m2
    | r => r
    end.
Proof.
  unfold makedirs. change (Str.dirname final_output) with dir_models.
  unfold dir_root, dir_assets, dir_models.
  cbn -[mkdir_exist_ok lookup insert]. unfold try_except. run.
  destruct (FS.path_exists m "speech_world/assets"); simpl; [reflexivity|].
  destruct (FS.path_exists m "speech_world"); simpl.
  - destruct (mkdir_exist_ok "speech_world/assets" m) as [[[]|[[]|]] ?]; reflexivity.
  - destruct (mkdir_exist_ok "speech_world" m) as [[[]|[[]|]] ?]; simpl; try reflexivity.
    all: destruct (mkdir_exist_ok "speech_world/assets" _) as [[[]|[[]|]] ?]; reflexivity.
Qed.

Lemma elem_of_asset_dirs p : p ∈ asset_dirs <-> p = dir_root \/ p = dir_assets \/ p = dir_models.
Proof. unfold asset_dirs. rewrite !elem_of_cons, elem_of_nil. unfold dir_root, dir_assets, dir_models. tauto. Qed.

Lemma mkdir_root m :
  mkdir_exist_ok dir_root m =
  match m !! dir_root with
  | None => (Ret tt, <[dir_root := Dir]> m)
  | Some Dir => (Ret tt, m)
  | Some (File _) => (Raise (Exception (FileExistsError dir_root)), m)
  end.
Proof.
  rewrite mkdir_exist_ok_run. unfold FS.mkdir, FS.isdir, FS.resolve_parent, dir_root.
  cbn -[lookup insert]. destruct (m !! "speech_world") as [[|]|]; reflexivity.
Qed.

Lemma mkdir_assets m :
  mkdir_exist_ok dir_assets m =
  match m !! dir_root, m !! dir_assets with
  | _, Some Dir => (Ret tt, m)
  | Some Dir, None => (Ret tt, <[dir_assets := Dir]> m)
  | Some Dir, Some (File _) => (Raise (Exception (FileExistsError dir_assets)), m)
  | Some (File _), _ => (Raise (Exception (NotADirectoryError dir_assets)), m)
  | None, _ => (Raise (Exception (FileNotFoundError dir_assets)), m)
  end.
Proof.
  rewrite mkdir_exist_ok_run. unfold FS.mkdir, FS.isdir, FS.resolve_parent, dir_root, dir_assets.
  cbn -[lookup insert].
  destruct (m !! "speech_world") as [[|]|], (m !! "speech_world/assets") as [[|]|]; reflexivity.
Qed.

Lemma mkdir_models m :
  mkdir_exist_ok dir_models m =
  match m !! dir_assets, m !! dir_models with
  | _, Some Dir => (Ret tt, m)
  | Some Dir, None => (Ret tt, <[dir_models := Dir]> m)
  | Some Dir, Some (File _) => (Raise (Exception (FileExistsError dir_models)), m)
  | Some (File _), _ => (Raise (Exception (NotADirectoryError dir_models)), m)
  | None, _ =>
      match m !! dir_root with
      | Some (File _) => (Raise (Exception (NotADirectoryError dir_models)), m)
      | _ => (Raise (Exception (FileNotFoundError dir_models)), m)
      end
  end.
Proof.
  rewrite mkdir_exist_ok_run.
  unfold FS.mkdir, FS.isdir, FS.resolve_parent, dir_root, dir_assets, dir_models.
  cbn -[lookup insert].
  destruct (m !! "speech_world/assets") as [[|]|], (m !! "speech_world/assets/models") as [[|]|];
    try reflexivity.
  all: destruct (m !! "speech_world") as [[|]|]; reflexivity.
Qed.

Lemma root_not_assets : dir_root <> dir_assets. Proof. discriminate. Qed.
Lemma root_not_models : dir_root <> dir_models. Proof. discriminate. Qed.
Lemma assets_not_models : dir_assets <> dir_models. Proof. discriminate. Qed.

Ltac lookups :=
  repeat first
    [ rewrite lookup_insert_eq
    | rewrite lookup_insert_ne by (first [exact root_not_assets | exact root_not_models | exact assets_not_models
         | exact (not_eq_sym root_not_assets) | exact (not_eq_sym root_not_models) | exact (not_eq_sym assets_not_models)
         | congruence ]) ].

(** [os.makedirs] on the asset directory, by cases on what stands at
    the three paths. *)
Ltac makedirs_table m :=
  rewrite ?makedirs_assets_unfold; unfold FS.path_exists;
  let E1 := fresh "E1" in let E2 := fresh "E2" in let E3 := fresh "E3" in
  destruct (m !! dir_root) as [[|]|] eqn:E1;
  destruct (m !! dir_assets) as [[|]|] eqn:E2;
  destruct (m !! dir_models) as [[|]|] eqn:E3;
  repeat (first [rewrite mkdir_root | rewrite mkdir_assets | rewrite mkdir_models];
          lookups; rewrite ?E1, ?E2, ?E3; cbn -[lookup insert dir_root dir_assets dir_models makedirs]).

Lemma makedirs_assets_ok m :
  asset_dirs_free m ->
  makedirs (Str.dirname final_output) m = (Ret tt, assets_made m) /\
  assets_made m !! dir_models = Some Dir.
Proof.
  unfold assets_made. intros Hfree.
  assert (H1 : forall b, m !! dir_root <> Some (File b))
    by (intros b; apply Hfree, elem_of_asset_dirs; auto).
  assert (H2 : forall b, m !! dir_assets <> Some (File b))
    by (intros b; apply Hfree, elem_of_asset_dirs; auto).
  assert (H3 : forall b, m !! dir_models <> Some (File b))
    by (intros b; apply Hfree, elem_of_asset_dirs; auto).
  makedirs_table m; try (exfalso; congruence); split; try reflexivity; lookups; done.
Qed.

Lemma makedirs_assets_effect m p :
  assets_made m !! p = m !! p \/
  (p ∈ asset_dirs /\ m !! p = None /\ assets_made m !! p = Some Dir).
Proof.
  rewrite elem_of_asset_dirs. unfold assets_made.
  makedirs_table m; auto.
  all: destruct (decide (p = dir_root)) as [->|];
    [|destruct (decide (p = dir_assets)) as [->|]; [|destruct (decide (p = dir_models)) as [->|]]];
    lookups; auto 7.
Qed.

Lemma makedirs_assets_again m :
  makedirs (Str.dirname final_output) (assets_made m) =
  (fst (makedirs (Str.dirname final_output) m), assets_made m).
Proof.
  unfold assets_made.
  destruct (makedirs (Str.dirname final_output) m) as [r m'] eqn:E. simpl.
  revert E. makedirs_table m; intros [= <- <-].
  all: repeat (progress (lookups; rewrite ?E1, ?E2, ?E3; cbn -[lookup insert dir_root dir_assets dir_models makedirs]));
    reflexivity.
Qed.

(** ** The scripts, step by step *)

Section Steps.

Variable onnx_load : list byte -> exn + Session.
Variable tflite_convert : Session -> string -> string -> list Z -> exn + list byte.

#[local] Abbreviation convert_to_tflite := (convert_to_tflite onnx_load tflite_convert).
#[local] Abbreviation conversion_attempt := (conversion_attempt tflite_convert).
#[local] Abbreviation attempt_raises := (attempt_raises tflite_convert).

Lemma first_lookup {S A} (l : list A) (x : A) (s : S) :
  l !! 0 = Some x -> first l s = (Ret x, s).
Proof. destruct l; intros [= ->]. reflexivity. Qed.

(** When Step 1 goes through, the function prints its prologue and
    enters the [try] on an unchanged file system. *)
Lemma convert_to_tflite_enters_try input_path output_path w b s i o :
  loads onnx_load (fs w) input_path b s i o ->
  convert_to_tflite input_path output_path w =
  try_except (conversion_attempt s (name i) (name o) output_path) any_Exception
    (fallback_copy input_path output_path)
    (add_lines w (prologue input_path (name i) (name o))).
Proof.
  intros [Hf Hs Hi Ho]. unfold convert_to_tflite, InferenceSession. run.
  rewrite Hf. simpl. rewrite Hs. simpl.
  rewrite (first_lookup _ _ _ Hi), (first_lookup _ _ _ Ho).
  unfold add_lines, prologue. simpl. rewrite <- !app_assoc. reflexivity.
Qed.

(** When Step 1 raises, nothing but the first line has been printed and
    the exception leaves the function. *)
Lemma convert_to_tflite_step1_raises input_path output_path w e :
  step1_raises onnx_load (fs w) input_path e ->
  convert_to_tflite input_path output_path w =
  (Raise (Exception e),
   add_lines w [Text ("Loading ONNX model from: " +:+ input_path)]).
Proof.
  intros H. unfold convert_to_tflite, InferenceSession. run.
  destruct H as [Hf|b e Hf Hl|b s Hf Hl Hi|b s i Hf Hl Hi Ho]; rewrite Hf; simpl.
  - reflexivity.
  - rewrite Hl. reflexivity.
  - rewrite Hl. simpl. rewrite Hi. reflexivity.
  - rewrite Hl. simpl. rewrite (first_lookup _ _ _ Hi), Ho. reflexivity.
Qed.

(** The attempt succeeds: three lines and one file. *)
Lemma conversion_attempt_ok s i o output_path w t :
  tflite_convert s (name i) (name o) [1; 1; 256; 1]%Z = inr t ->
  writable (fs w) output_path ->
  conversion_attempt s (name i) (name o) output_path w =
  (Ret tt,
   {| fs := <[output_path := File t]> (fs w);
      stdout := stdout w ++
        [ Text ("Saving TFLite model to: " +:+ output_path);
          Text "Model converted successfully!";
          SizeLine "Output size: " (Some (length t)) ] |}).
Proof.
  intros Hc Hw. unfold conversion_attempt. run. rewrite Hc. simpl.
  rewrite (write_file_writable _ _ t Hw). simpl.
  unfold FS.getsize. rewrite lookup_insert_eq. simpl.
  rewrite <- !app_assoc. reflexivity.
Qed.

(** The attempt raises: the file system is as before, and at most the
    line announcing the write has been printed. *)
Lemma conversion_attempt_raises s i o output_path w e :
  attempt_raises (fs w) s i o output_path e ->
  exists ls, (ls = [] \/ ls = [Text ("Saving TFLite model to: " +:+ output_path)]) /\
             conversion_attempt s (name i) (name o) output_path w =
             (Raise (Exception e), add_lines w ls).
Proof.
  intros [e' Hc|t e' Hc Hw]; unfold conversion_attempt; run; rewrite Hc; simpl.
  - exists []. split; [now left|]. unfold add_lines. rewrite app_nil_r. now destruct w.
  - rewrite Hw. simpl. eexists [_]. split; [now right|]. reflexivity.
Qed.

(** The attempt either succeeds or raises in one of the two ways. *)
Lemma conversion_attempt_cases s i o output_path m :
  (exists t, tflite_convert s (name i) (name o) [1; 1; 256; 1]%Z = inr t /\
             writable m output_path) \/
  (exists e, attempt_raises m s i o output_path e).
Proof.
  destruct (tflite_convert s (name i) (name o) [1; 1; 256; 1]%Z) as [e|t] eqn:Hc.
  - right. exists e. now constructor.
  - destruct (FS.write_file m output_path t) as [e|m'] eqn:Hw.
    + right. exists e. eapply raises_write; eassumption.
    + left. exists t. split; [reflexivity|]. now apply write_file_inr in Hw.
Qed.

(** The fallback branch, call by call. *)
Lemma fallback_copy_run input_path output_path e w :
  fallback_copy input_path output_path e w =
  let copied := Text ("Copied ONNX model to: " +:+ sibling output_path) in
  let also := Text ("Also copied to: " +:+ final_output) in
  let out := stdout w ++ fallback_lines e in
  match shutil_copy input_path (sibling output_path) (fs w) with
  | (Raise r, m1) => (Raise r, {| fs := m1; stdout := out |})
  | (Ret _, m1) =>
      match makedirs (Str.dirname final_output) m1 with
      | (Raise r, m2) => (Raise r, {| fs := m2; stdout := out ++ [copied] |})
      | (Ret _, m2) =>
          match shutil_copy input_path final_output m2 with
          | (Raise r, m3) => (Raise r, {| fs := m3; stdout := out ++ [copied] |})
          | (Ret _, m3) => (Ret tt, {| fs := m3; stdout := out ++ [copied; also] |})
          end
      end
  end.
Proof.
  unfold fallback_copy, fallback_lines, sibling.
  unfold bind at 1 2. unfold print at 1 2. cbn [fs stdout].
  rewrite <- app_assoc. simpl app.
  unfold bind at 1. unfold on_fs at 1. cbn [fs stdout].
  destruct (shutil_copy _ _ (fs w)) as [[d1|r1] m1]; [|reflexivity].
  unfold bind at 1. unfold print at 1. cbn [fs stdout].
  unfold bind at 1. unfold on_fs at 1. cbn [fs stdout].
  destruct (makedirs _ m1) as [[[]|r2] m2]; [|reflexivity].
  unfold bind at 1. unfold on_fs at 1. cbn [fs stdout].
  destruct (shutil_copy _ _ m2) as [[d3|r3] m3]; [|reflexivity].
  unfold print. cbn [fs stdout]. rewrite <- !app_assoc. reflexivity.
Qed.

End Steps.

(** ** The [__main__] blocks *)

Section Main.

Variable onnx_load : list byte -> exn + Session.
Variable tflite_convert : Session -> string -> string -> list Z -> exn + list byte.

Lemma convert_to_tflite_main_found m :
  FS.path_exists m "silero_vad.onnx" = true ->
  convert_to_tflite_main onnx_load tflite_convert (start m) =
  convert_to_tflite onnx_load tflite_convert "silero_vad.onnx" "silero_vad.tflite" (start m).
Proof.
  intros H. unfold convert_to_tflite_main.
  unfold bind at 1. unfold on_fs at 1, path_exists at 1. run. rewrite H. reflexivity.
Qed.


Lemma loads_path_exists m path b s i o :
  loads onnx_load m path b s i o -> FS.path_exists m path = true.
Proof. intros [Hf _ _ _]. unfold FS.path_exists. now rewrite Hf. Qed.

Lemma step1_raises_path_exists m path e :
  step1_raises onnx_load m path e -> FS.path_exists m path = true.
Proof. unfold FS.path_exists. now intros [-> | ? ? -> | ? ? -> | ? ? ? ->]. Qed.

(** Step 1 on something that exists: it goes through or it raises. *)
Lemma step1_cases m path :
  FS.path_exists m path = true ->
  (exists b s i o, loads onnx_load m path b s i o) \/
  (exists e, step1_raises onnx_load m path e).
Proof.
  unfold FS.path_exists. destruct (m !! path) as [[b|]|] eqn:Hf; [| |done]; intros _.
  - destruct (onnx_load b) as [e|s] eqn:Hl.
    + right. eexists. eapply step1_rejected; eassumption.
    + destruct (get_inputs s) as [|i li] eqn:Hi.
      * right. eexists. eapply step1_no_input; eassumption.
      * destruct (get_outputs s) as [|o lo] eqn:Ho.
        -- right. eexists. eapply step1_no_output; try eassumption. now rewrite Hi.
        -- left. exists b, s, i, o. split; try assumption; [now rewrite Hi|now rewrite Ho].
  - right. eexists. now apply step1_directory.
Qed.

End Main.

(** A line that starts with another letter is not the line looked for. *)
Ltac not_printed :=
  unfold reports_FallbackCopied, reports_Converted, reports_failure, add_lines, prologue,
    fallback_lines, start; cbn [stdout fs fst snd];
  rewrite <- ?app_assoc; cbn [app];
  rewrite ?list_elem_of_In; cbn [In];
  intuition discriminate.

(** ** The fallback branch when its steps go through *)

Lemma shutil_copy_file (m : gmap string node) src dst b :
  m !! src = Some (File b) -> src <> dst -> writable m dst ->
  shutil_copy src dst m = (Ret dst, <[dst := File b]> m).
Proof.
  intros Hs Hne Hw. rewrite shutil_copy_run.
  assert (Hd : FS.isdir m dst = false).
  { unfold FS.isdir. destruct Hw as (_ & _ & Hw). destruct (m !! dst) as [[|]|]; congruence. }
  rewrite Hd. cbn zeta. rewrite copyfile_run.
  unfold FS.samefile. rewrite (bool_decide_eq_false_2 _ Hne), andb_false_r.
  unfold FS.read_file. rewrite Hs. now rewrite (write_file_writable _ _ b Hw).
Qed.

Lemma assets_made_keeps (m : gmap string node) p n :
  m !! p = Some n -> assets_made m !! p = Some n.
Proof.
  intros H. destruct (makedirs_assets_effect m p) as [->|(_ & Hn & _)]; congruence.
Qed.

Lemma assets_made_frame (m : gmap string node) p :
  p ∉ asset_dirs -> assets_made m !! p = m !! p.
Proof.
  intros H. destruct (makedirs_assets_effect m p) as [->|(Hin & _)]; [reflexivity|done].
Qed.

Lemma final_output_not_asset_dir : final_output ∉ asset_dirs.
Proof. rewrite elem_of_asset_dirs. intros [H|[H|H]]; discriminate H. Qed.

Lemma fallback_copy_completes input_path output_path e w b :
  fs w !! input_path = Some (File b) ->
  fallback_can_copy (fs w) input_path output_path ->
  fallback_copy input_path output_path e w =
  (Ret tt,
   {| fs := fallback_result (fs w) output_path b;
      stdout := (stdout w ++ fallback_lines e) ++
        [ Text ("Copied ONNX model to: " +:+ sibling output_path);
          Text ("Also copied to: " +:+ final_output) ] |}).
Proof.
  intros Hs [Hns Hna Hw Hnd Hfree Hsd].
  rewrite fallback_copy_run. cbv zeta.
  set (m1 := <[sibling output_path := File b]> (fs w)).
  rewrite (shutil_copy_file _ _ _ b Hs (not_eq_sym Hns) Hw). fold m1.
  assert (Hfree1 : asset_dirs_free m1).
  { intros p b' Hp. unfold m1. rewrite lookup_insert_ne by (intros Heq; apply Hsd; now rewrite Heq).
    now apply Hfree. }
  destruct (makedirs_assets_ok m1 Hfree1) as [-> Hdir].
  assert (Hs2 : assets_made m1 !! input_path = Some (File b)).
  { apply assets_made_keeps. unfold m1. now rewrite lookup_insert_ne. }
  assert (Hw2 : writable (assets_made m1) final_output).
  { split; [discriminate|]. split.
    - unfold FS.resolve_parent. change (Str.dirname final_output) with dir_models.
      unfold dir_models in *. now rewrite Hdir.
    - rewrite assets_made_frame by apply final_output_not_asset_dir.
      unfold m1. destruct (decide (sibling output_path = final_output)) as [->|Hne].
      + rewrite lookup_insert_eq. discriminate.
      + now rewrite lookup_insert_ne. }
  rewrite (shutil_copy_file _ _ _ b Hs2 Hna Hw2). reflexivity.
Qed.

Lemma fallback_result_asset m output_path b :
  fallback_result m output_path b !! final_output = Some (File b).
Proof. apply lookup_insert_eq. Qed.

Lemma fallback_result_sibling m output_path b :
  fallback_result m output_path b !! sibling output_path = Some (File b).
Proof.
  unfold fallback_result.
  destruct (decide (final_output = sibling output_path)) as [<-|Hne].
  - apply lookup_insert_eq.
  - rewrite lookup_insert_ne by assumption. apply assets_made_keeps, lookup_insert_eq.
Qed.

Lemma fallback_result_frame m output_path b p :
  p <> sibling output_path -> p <> final_output -> p ∉ asset_dirs ->
  fallback_result m output_path b !! p = m !! p.
Proof.
  intros H1 H2 H3. unfold fallback_result.
  rewrite lookup_insert_ne by congruence. rewrite assets_made_frame by assumption.
  now rewrite lookup_insert_ne by congruence.
Qed.

Section Fallback.

Variable onnx_load : list byte -> exn + Session.
Variable tflite_convert : Session -> string -> string -> list Z -> exn + list byte.

(** An exception of the attempt is caught: the function goes on with the
    fallback branch, on the file system it started from. *)
Lemma convert_to_tflite_falls_back (m : gmap string node) input_path output_path b s i o e :
  loads onnx_load m input_path b s i o ->
  attempt_raises tflite_convert m s i o output_path e ->
  exists ls,
    (ls = [] \/ ls = [Text ("Saving TFLite model to: " +:+ output_path)]) /\
    convert_to_tflite onnx_load tflite_convert input_path output_path (start m) =
    fallback_copy input_path output_path e
      {| fs := m; stdout := prologue input_path (name i) (name o) ++ ls |}.
Proof.
  intros Hl Ha.
  rewrite (convert_to_tflite_enters_try _ _ _ _ (start m) b s i o Hl).
  unfold try_except.
  destruct (conversion_attempt_raises tflite_convert s i o output_path
              (add_lines (start m) (prologue input_path (name i) (name o))) e Ha)
    as (ls & Hls & ->).
  exists ls. split; [exact Hls|]. reflexivity.
Qed.


End Fallback.

(** ** The two ways [convert_to_tflite] returns *)

Section Outcomes.

Variable onnx_load : list byte -> exn + Session.
Variable tflite_convert : Session -> string -> string -> list Z -> exn + list byte.

(** Converted: the prologue, three more lines, one file. *)
Lemma convert_to_tflite_converted (m : gmap string node) input_path output_path b s i o t :
  loads onnx_load m input_path b s i o ->
  tflite_convert s (name i) (name o) [1; 1; 256; 1]%Z = inr t ->
  writable m output_path ->
  convert_to_tflite onnx_load tflite_convert input_path output_path (start m) =
  (Ret tt,
   {| fs := <[output_path := File t]> m;
      stdout := prologue input_path (name i) (name o) ++
        [ Text ("Saving TFLite model to: " +:+ output_path);
          Text "Model converted successfully!";
          SizeLine "Output size: " (Some (length t)) ] |}).
Proof.
  intros Hl Hc Hw.
  rewrite (convert_to_tflite_enters_try _ _ _ _ (start m) b s i o Hl).
  unfold try_except.
  rewrite (conversion_attempt_ok _ s i o output_path _ t Hc) by exact Hw.
  reflexivity.
Qed.

(** FallbackCopied: the attempt raised and the branch could copy. *)
Lemma convert_to_tflite_fallback_copied (m : gmap string node) input_path output_path
    b s i o e :
  loads onnx_load m input_path b s i o ->
  attempt_raises tflite_convert m s i o output_path e ->
  fallback_can_copy m input_path output_path ->
  exists ls,
    (ls = [] \/ ls = [Text ("Saving TFLite model to: " +:+ output_path)]) /\
    convert_to_tflite onnx_load tflite_convert input_path output_path (start m) =
    (Ret tt,
     {| fs := fallback_result m output_path b;
        stdout := ((prologue input_path (name i) (name o) ++ ls) ++ fallback_lines e) ++
          [ Text ("Copied ONNX model to: " +:+ sibling output_path);
            Text ("Also copied to: " +:+ final_output) ] |}).
Proof.
  intros Hl Ha Hcan.
  destruct (convert_to_tflite_falls_back onnx_load tflite_convert m input_path output_path
              b s i o e Hl Ha) as (ls & Hls & ->).
  exists ls. split; [exact Hls|].
  now rewrite (fallback_copy_completes input_path output_path e _ b)
    by (first [exact (loads_file _ _ _ _ _ _ _ Hl)|exact Hcan]).
Qed.

(** After a raised attempt Converted is not reported, however the
    fallback branch ends. *)
Lemma fallback_copy_not_Converted input_path output_path e w :
  ~ reports_Converted w ->
  ~ reports_Converted (snd (fallback_copy input_path output_path e w)).
Proof.
  intros Hw. rewrite fallback_copy_run. cbv zeta.
  assert (Hout : forall ls,
    Text "Model converted successfully!" ∉ ls ->
    Text "Model converted successfully!" ∉ (stdout w ++ fallback_lines e) ++ ls).
  { intros ls Hls. rewrite !elem_of_app. intros [[H|H]|H]; [now apply Hw| |now apply Hls].
    revert H. not_printed. }
  unfold reports_Converted.
  destruct (shutil_copy _ _ _) as [[d1|r1] m1]; cbn [snd stdout].
  2: { rewrite <- (app_nil_r (_ ++ _)). apply Hout, not_elem_of_nil. }
  destruct (makedirs _ _) as [[[]|r2] m2]; cbn [snd stdout].
  2: { apply Hout. not_printed. }
  destruct (shutil_copy _ _ _) as [[d3|r3] m3]; cbn [snd stdout]; apply Hout; not_printed.
Qed.

End Outcomes.

(** ** The sample world *)

Lemma model_only_loads :
  loads load_vad model_only "silero_vad.onnx" model_bytes vad_session
    {| name := "input"; shape := [DimNone; DimNone]; type := "tensor(float)" |}
    {| name := "output"; shape := [DimNone; DimInt 1]; type := "tensor(float)" |}.
Proof. split; reflexivity. Qed.

Lemma model_only_can_copy : fallback_can_copy model_only "silero_vad.onnx" "model.tflite".
Proof.
  split.
  - discriminate.
  - discriminate.
  - split; [discriminate|]. split; [reflexivity|]. vm_compute. discriminate.
  - vm_compute. discriminate.
  - intros p b. rewrite elem_of_asset_dirs. intros [->|[->| ->]]; vm_compute; discriminate.
  - rewrite elem_of_asset_dirs. intros [H|[H|H]]; discriminate H.
Qed.

Lemma model_only_well_formed : well_formed model_only.
Proof.
  intros p n. unfold model_only. rewrite lookup_singleton.
  case_decide as Hp; [|discriminate]. subst p. reflexivity.
Qed.

(** ** [inspect_model], step by step *)

Lemma for_each_print_node_arg l w :
  for_each l print_node_arg w = (Ret tt, add_lines w (descriptor_lines l)).
Proof.
  revert w. induction l as [|a l IH]; intros w.
  - unfold add_lines. simpl. rewrite app_nil_r. now destruct w.
  - simpl for_each. unfold bind at 1. unfold print_node_arg at 1. run.
    rewrite IH. unfold add_lines. simpl. now rewrite <- !app_assoc.
Qed.

(** A copy that returns has written the source's bytes at its target,
    which is not the source. *)
Lemma shutil_copy_Ret (m : gmap string node) src dst d m' :
  shutil_copy src dst m = (Ret d, m') ->
  exists b, m !! src = Some (File b) /\
            d = copy_target m src dst /\ d <> src /\
            writable m d /\ m' = <[d := File b]> m.
Proof.
  rewrite shutil_copy_run. fold (copy_target m src dst). cbv zeta.
  rewrite copyfile_run. unfold FS.samefile, FS.read_file, FS.path_exists.
  destruct (m !! src) as [[b|]|] eqn:Hs; cbn [andb].
  - destruct (m !! copy_target m src dst) as [n|] eqn:Hd; cbn [andb].
    + destruct (bool_decide_reflect (src = copy_target m src dst)) as [He|He]; [discriminate|].
      destruct (FS.write_file _ _ _) as [e|m2] eqn:Hw; [discriminate|].
      intros [= <- <-]. apply write_file_inr in Hw as [Hw ->]. exists b.
      split; [reflexivity|split; [reflexivity|split; [congruence|split; [exact Hw|reflexivity]]]].
    + destruct (FS.write_file _ _ _) as [e|m2] eqn:Hw; [discriminate|].
      intros [= <- <-]. apply write_file_inr in Hw as [Hw ->]. exists b.
      split; [reflexivity|split; [reflexivity|split; [|split; [exact Hw|reflexivity]]]].
      intros He. rewrite He in Hd. congruence.
  - destruct (m !! copy_target m src dst); cbn [andb];
      [destruct (bool_decide _)|]; discriminate.
  - discriminate.
Qed.

Section Inspect.

Variable onnx_load : list byte -> exn + Session.

(** Once the session is loaded the function prints the descriptors and
    comes to the copy; what follows is decided by the copy. *)
Lemma inspect_model_run (m : gmap string node) input_path b s :
  m !! input_path = Some (File b) ->
  onnx_load b = inr s ->
  inspect_model onnx_load input_path (start m) =
  let output_path := Str.replace ".onnx" "_model.onnx" input_path in
  let pre := inspection_lines input_path s in
  let copied := Text (nl +:+ "Model copied to: " +:+ output_path) in
  match shutil_copy input_path output_path m with
  | (Raise r, m') => (Raise r, {| fs := m'; stdout := pre |})
  | (Ret _, m') =>
      match FS.getsize m' output_path with
      | inl e => (Raise (Exception e), {| fs := m'; stdout := pre ++ [copied] |})
      | inr size =>
          (Ret tt, {| fs := m'; stdout := pre ++ [copied; SizeLine "Size: " size] |})
      end
  end.
Proof.
  intros Hf Hl. unfold inspect_model, InferenceSession.
  unfold bind at 1. unfold print at 1. cbn [fs stdout start app].
  unfold bind at 1. unfold on_fs at 1. unfold bind at 1. unfold get at 1. cbn [fs stdout].
  rewrite Hf, Hl. cbn [lift]. unfold ret at 1.
  unfold bind at 1. unfold print at 1. cbn [fs stdout app].
  unfold bind at 1. rewrite for_each_print_node_arg.
  unfold bind at 1. unfold print at 1. cbn [fs stdout add_lines].
  unfold bind at 1. rewrite for_each_print_node_arg.
  unfold bind at 1. unfold print at 1. cbn [fs stdout add_lines].
  unfold bind at 1. unfold print at 1. cbn [fs stdout add_lines].
  unfold bind at 1. unfold on_fs at 1. cbn [fs stdout]. cbv zeta.
  assert (Hpre : forall l2,
    ((((([Text ("Loading ONNX model from: " +:+ input_path);
          Text (nl +:+ "=== Model Inputs ===")] ++ descriptor_lines (get_inputs s)) ++
         [Text (nl +:+ "=== Model Outputs ===")]) ++ descriptor_lines (get_outputs s)) ++
       [Text (nl +:+ "=== Model Ready ===")]) ++
      [Text "The model is valid and can be used with onnxruntime!"]) ++ l2
    = inspection_lines input_path s ++ l2).
  { intros l2. unfold inspection_lines. now rewrite <- !app_assoc. }
  destruct (shutil_copy _ _ m) as [[d|r] m'].
  - unfold bind at 1. unfold print at 1. cbn [fs stdout].
    unfold bind at 1. unfold on_fs at 1. unfold getsize, bind, get. cbn [fs stdout].
    destruct (FS.getsize m' _) as [e|size]; cbn [lift]; unfold raise, ret, print; cbn [fs stdout].
    + now rewrite Hpre.
    + rewrite <- app_assoc. now rewrite Hpre.
  - now rewrite <- (app_nil_r (_ ++ [Text "The model is valid and can be used with onnxruntime!"])),
      Hpre, app_nil_r.
Qed.

End Inspect.

(** ** The model at work *)

Example replace_output_file :
  Str.replace ".tflite" ".onnx" "silero_vad.tflite" = "silero_vad.onnx".
Proof. reflexivity. Qed.

Example replace_every_occurrence :
  Str.replace ".tflite" ".onnx" "a.tflite/b.tflite.tflitex" = "a.onnx/b.onnx.onnxx".
Proof. reflexivity. Qed.

Example replace_inspected :
  Str.replace ".onnx" "_model.onnx" "silero_vad.onnx" = "silero_vad_model.onnx".
Proof. reflexivity. Qed.

Example dirname_final_output : Str.dirname final_output = dir_models.
Proof. reflexivity. Qed.

Example dirname_of_plain_name : Str.dirname "silero_vad.tflite" = "".
Proof. reflexivity. Qed.

Example split_keeps_root : Str.split "//x" = ("//", "x").
Proof. reflexivity. Qed.

Example split_drops_trailing_slashes : Str.split "a/b//" = ("a/b", "").
Proof. reflexivity. Qed.

Example copy_onto_itself :
  shutil_copy "silero_vad.onnx" "silero_vad.onnx" model_only =
  (Raise (Exception (SameFileError "silero_vad.onnx" "silero_vad.onnx")), model_only).
Proof. vm_compute. reflexivity. Qed.

Example makedirs_from_scratch :
  assets_made model_only =
  <[dir_models := Dir]> (<[dir_assets := Dir]> (<[dir_root := Dir]> model_only)).
Proof. vm_compute. reflexivity. Qed.

Example inspection_of_the_model :
  fst (convert_vad_main load_vad (start model_only)) = Ret tt.
Proof. vm_compute. reflexivity. Qed.

(** ** [str.replace] *)

Lemma append_nil_l (x : string) : EmptyString +:+ x = x.
Proof. reflexivity. Qed.

Lemma append_cons (c : ascii) (x y : string) : String c x +:+ y = String c (x +:+ y).
Proof. reflexivity. Qed.

Lemma startswith_app old rest : Str.startswith old (old +:+ rest) = true.
Proof.
  unfold Str.startswith. induction old as [|a old IH]; simpl.
  - now destruct rest.
  - destruct (ascii_dec a a); [exact IH|contradiction].
Qed.

Lemma startswith_inv old s :
  Str.startswith old s = true -> exists rest, s = old +:+ rest.
Proof.
  unfold Str.startswith. revert s. induction old as [|a old IH]; intros s H.
  - exists s. reflexivity.
  - destruct s as [|c s]; [discriminate|]. simpl in H.
    destruct (ascii_dec a c) as [->|]; [|discriminate].
    destruct (IH s H) as [rest ->]. exists rest. reflexivity.
Qed.

(** The characters of a match that was just replaced are skipped. *)
Lemma replace_from_skip old new x s :
  Str.replace_from old new (String.length x) (x +:+ s) = Str.replace_from old new 0 s.
Proof.
  induction x as [|a x IH]; simpl.
  - now destruct s.
  - exact IH.
Qed.

Lemma replace_from_hit old new a old' rest :
  old = String a old' ->
  Str.replace_from old new 0 (old +:+ rest) = new +:+ Str.replace_from old new 0 rest.
Proof.
  intros ->. change (String a old' +:+ rest) with (String a (old' +:+ rest)).
  cbn [Str.replace_from].
  change (String a (old' +:+ rest)) with (String a old' +:+ rest).
  rewrite startswith_app.
  replace (String.length (String a old') - 1) with (String.length old') by (simpl; lia).
  now rewrite replace_from_skip.
Qed.

Lemma length_app_string (x y : string) :
  String.length (x +:+ y) = String.length x + String.length y.
Proof. induction x as [|a x IH]; simpl; [reflexivity|now rewrite IH]. Qed.

(** [str.replace] meets the relation that spells the claim out. *)
Lemma replace_Replaced old new s :
  old <> EmptyString -> Replaced old new s (Str.replace old new s).
Proof.
  intros Hold. destruct old as [|a old']; [contradiction|]. unfold Str.replace.
  remember (String.length s) as n eqn:Hn. revert s Hn.
  induction n as [n IH] using lt_wf_ind. intros s Hn.
  destruct s as [|c s'].
  - constructor.
  - destruct (Str.startswith (String a old') (String c s')) eqn:Hp.
    + destruct (startswith_inv _ _ Hp) as [rest Hrest]. rewrite Hrest.
      rewrite (replace_from_hit _ new a old' rest eq_refl).
      apply Replaced_hit. apply (IH (String.length rest)); [|reflexivity].
      rewrite Hn, Hrest, length_app_string. simpl. lia.
    + cbn [Str.replace_from]. rewrite Hp. apply Replaced_keep; [exact Hp|].
      apply (IH (String.length s')); [|reflexivity]. rewrite Hn. simpl. lia.
Qed.


Lemma occurs_cons old c s :
  Str.occurs old (String c s) ->
  Str.startswith old (String c s) = true \/ Str.occurs old s.
Proof.
  intros (pre & post & H). destruct pre as [|p pre].
  - left. rewrite append_nil_l in H. rewrite H. apply startswith_app.
  - right. rewrite append_cons in H. injection H as _ H. exists pre, post. exact H.
Qed.

Lemma occurs_nil old : old <> EmptyString -> ~ Str.occurs old EmptyString.
Proof.
  intros Hold (pre & post & H). destruct pre; [|discriminate].
  rewrite append_nil_l in H. destruct old; [contradiction|discriminate].
Qed.

(** A path without the pattern is left as it is. *)
Lemma replace_no_occurrence old new s :
  old <> EmptyString -> ~ Str.occurs old s -> Str.replace old new s = s.
Proof.
  intros Hold. destruct old as [|a old']; [contradiction|]. unfold Str.replace.
  induction s as [|c s IH]; intros Hno; [reflexivity|].
  cbn [Str.replace_from].
  destruct (Str.startswith (String a old') (String c s)) eqn:Hp.
  - exfalso. apply Hno. destruct (startswith_inv _ _ Hp) as [rest ->].
    exists EmptyString, rest. reflexivity.
  - f_equal. apply IH. intros (pre & post & H). apply Hno.
    exists (String c pre), post. simpl. now rewrite H.
Qed.

(** In the result of replacing [.tflite] by [.onnx], a character other
    than the dot was kept from the source. *)
Lemma Replaced_tflite_head s a t :
  Replaced ".tflite" ".onnx" s (String a t) -> a <> "."%char ->
  exists s', s = String a s' /\ Replaced ".tflite" ".onnx" s' t.
Proof.
  intros H Ha. remember (String a t) as u eqn:Hu.
  destruct H as [|s1 t1 H1|c s1 t1 Hp H1].
  - discriminate.
  - rewrite append_cons in Hu. injection Hu as Hu _. congruence.
  - injection Hu as -> ->. eauto.
Qed.

(** No [.tflite] is left in the result. *)
Lemma Replaced_tflite_none_left s t :
  Replaced ".tflite" ".onnx" s t -> ~ Str.occurs ".tflite" t.
Proof.
  induction 1 as [|s t H IH|c s t Hp H IH].
  - now apply occurs_nil.
  - intros Ho. simpl in Ho.
    repeat (apply occurs_cons in Ho as [Ho|Ho]; [discriminate Ho|]).
    exact (IH Ho).
  - intros Ho. apply occurs_cons in Ho as [Ho|Ho]; [|exact (IH Ho)].
    destruct (startswith_inv _ _ Ho) as [rest Hrest]. simpl in Hrest.
    injection Hrest as -> ->. rewrite !append_cons, append_nil_l in H.
    repeat match goal with
    | H : Replaced _ _ _ (String _ _) |- _ =>
        apply Replaced_tflite_head in H as (? & -> & H); [|discriminate]
    end.
    unfold Str.startswith in Hp. simpl in Hp.
    match type of Hp with String.prefix _ ?x = false => now destruct x end.
Qed.

(** ** What the first copy of the fallback branch leaves *)

Lemma shutil_copy_Raise (m : gmap string node) src dst r m' :
  shutil_copy src dst m = (Raise r, m') -> m' = m.
Proof.
  rewrite shutil_copy_run. cbv zeta. rewrite copyfile_run.
  destruct (FS.samefile _ _ _); [now intros [= _ <-]|].
  destruct (FS.read_file _ _); [now intros [= _ <-]|].
  destruct (FS.write_file _ _ _); [now intros [= _ <-]|discriminate].
Qed.


(** ** The directory of the sibling path *)

Lemma rsplit_slash_no_slash t :
  Str.lacks "/" t = true -> Str.rsplit_slash t = (EmptyString, t).
Proof.
  induction t as [|c t IH]; [reflexivity|]. cbn [Str.lacks Str.rsplit_slash].
  intros [Hc Ht]%andb_true_iff. rewrite (IH Ht). unfold Str.is_slash.
  now destruct (Ascii.eqb c "/").
Qed.

Lemma rsplit_slash_spec p :
  let (h, t) := Str.rsplit_slash p in
  p = h +:+ t /\ Str.lacks "/" t = true /\ (h = EmptyString \/ Str.ends_with_slash h = true).
Proof.
  induction p as [|c p IH]; [simpl; auto|]. cbn [Str.rsplit_slash].
  destruct (Str.rsplit_slash p) as [h t]. destruct IH as (-> & Ht & Hh).
  destruct h as [|a h].
  - unfold Str.is_slash. destruct (Ascii.eqb c "/") eqn:Hc.
    + split; [reflexivity|]. split; [exact Ht|]. right. simpl. exact Hc.
    + split; [reflexivity|]. split; [|now left]. cbn [Str.lacks]. now rewrite Hc.
  - split; [reflexivity|]. split; [exact Ht|]. right.
    destruct Hh as [Hh|Hh]; [discriminate|exact Hh].
Qed.

Lemma rsplit_slash_app h t :
  Str.lacks "/" t = true ->
  h = EmptyString \/ Str.ends_with_slash h = true ->
  Str.rsplit_slash (h +:+ t) = (h, t).
Proof.
  intros Ht. induction h as [|c h IH]; intros Hh.
  - now apply rsplit_slash_no_slash.
  - destruct Hh as [Hh|Hh]; [discriminate|]. rewrite append_cons. cbn [Str.rsplit_slash].
    destruct h as [|a h].
    + rewrite append_nil_l, (rsplit_slash_no_slash t Ht). simpl in Hh. now rewrite Hh.
    + rewrite IH by (right; exact Hh). reflexivity.
Qed.

Lemma replace_from_lacks_dot x y :
  Str.lacks "." x = true ->
  Str.replace_from ".tflite" ".onnx" 0 (x +:+ y) = x +:+ Str.replace_from ".tflite" ".onnx" 0 y.
Proof.
  induction x as [|c x IH]; [reflexivity|]. cbn [Str.lacks].
  intros [Hc Hx]%andb_true_iff. rewrite !append_cons. cbn [Str.replace_from].
  assert (Hp : Str.startswith ".tflite" (String c (x +:+ y)) = false).
  { unfold Str.startswith. cbn [String.prefix].
    destruct (ascii_dec "." c) as [<-|]; [discriminate Hc|reflexivity]. }
  rewrite Hp. f_equal. exact (IH Hx).
Qed.

Lemma replace_from_lacks_slash s k :
  Str.lacks "/" s = true ->
  Str.lacks "/" (Str.replace_from ".tflite" ".onnx" k s) = true.
Proof.
  revert k. induction s as [|c s IH]; intros k; [reflexivity|]. cbn [Str.lacks].
  intros [Hc Hs]%andb_true_iff. cbn [Str.replace_from]. destruct k as [|k].
  - destruct (Str.startswith ".tflite" (String c s)).
    + rewrite !append_cons, append_nil_l. cbn [Str.lacks]. apply IH, Hs.
    + cbn [Str.lacks]. rewrite Hc. apply IH, Hs.
  - apply IH, Hs.
Qed.

Lemma rstrip_slash_lacks_dot h :
  Str.lacks "." (Str.rstrip_slash h) = true -> Str.lacks "." h = true.
Proof.
  induction h as [|c h IH]; [reflexivity|]. cbn [Str.rstrip_slash Str.lacks].
  destruct (Str.rstrip_slash h) as [|a r].
  - unfold Str.is_slash. destruct (Ascii.eqb c "/") eqn:Hc.
    + intros _. rewrite (IH eq_refl), andb_true_r.
      apply Ascii.eqb_eq in Hc as ->. reflexivity.
    + cbn [Str.lacks]. rewrite andb_true_r. intros ->. now rewrite IH.
  - cbn [Str.lacks] in *. intros [-> H]%andb_true_iff. now rewrite IH.
Qed.

(** When the part of the output path up to its last slash has no dot,
    replacing [.tflite] only touches the file name: the sibling path is
    in the same directory. *)
Lemma dirname_sibling output_path :
  Str.lacks "." (fst (Str.rsplit_slash output_path)) = true ->
  Str.dirname (sibling output_path) = Str.dirname output_path.
Proof.
  intros Hdot. assert (Hspec := rsplit_slash_spec output_path).
  unfold Str.dirname, Str.split, sibling, Str.replace.
  destruct (Str.rsplit_slash output_path) as [h t]. cbn [fst] in Hdot.
  destruct Hspec as (-> & Ht & Hh).
  rewrite (replace_from_lacks_dot h t Hdot).
  rewrite (rsplit_slash_app h _ (replace_from_lacks_slash t 0 Ht) Hh).
  now destruct (Str.rstrip_slash h).
Qed.

Lemma dirname_sibling_asset_dir output_path :
  Str.dirname output_path ∈ asset_dirs ->
  Str.dirname (sibling output_path) = Str.dirname output_path.
Proof.
  intros Hin. apply dirname_sibling.
  assert (Hdot : Str.lacks "." (Str.dirname output_path) = true).
  { apply elem_of_asset_dirs in Hin as [-> |[-> | ->]]; reflexivity. }
  revert Hdot. unfold Str.dirname, Str.split.
  destruct (Str.rsplit_slash output_path) as [h t]. cbn [fst].
  destruct (Str.rstrip_slash h) as [|a r] eqn:Hr; cbn [fst]; [auto|].
  intros Hdot. apply rstrip_slash_lacks_dot. now rewrite Hr.
Qed.

(** ** Running the fallback calls again *)

Lemma fallback_calls_run input_path output_path (m : gmap string node) :
  fallback_calls input_path output_path m =
  match shutil_copy input_path (sibling output_path) m with
  | (Raise r, m1) => (Raise r, m1)
  | (Ret _, m1) =>
      match makedirs (Str.dirname final_output) m1 with
      | (Raise r, m2) => (Raise r, m2)
      | (Ret _, m2) =>
          match shutil_copy input_path final_output m2 with
          | (Raise r, m3) => (Raise r, m3)
          | (Ret _, m3) => (Ret tt, m3)
          end
      end
  end.
Proof.
  unfold fallback_calls. unfold bind at 1.
  destruct (shutil_copy _ _ m) as [[d1|r1] m1]; [|reflexivity].
  unfold bind at 1. destruct (makedirs _ m1) as [[[]|r2] m2]; [|reflexivity].
  unfold bind at 1. destruct (shutil_copy _ _ m2) as [[d3|r3] m3]; reflexivity.
Qed.

(** The fallback branch does to the file system what its calls do. *)
Lemma fallback_copy_calls input_path output_path e w :
  let r := fallback_copy input_path output_path e w in
  (fst r, fs (snd r)) = fallback_calls input_path output_path (fs w).
Proof.
  cbv zeta. rewrite fallback_copy_run, fallback_calls_run. cbv zeta.
  destruct (shutil_copy _ _ (fs w)) as [[d1|r1] m1]; [|reflexivity].
  destruct (makedirs _ m1) as [[[]|r2] m2]; [|reflexivity].
  destruct (shutil_copy _ _ m2) as [[d3|r3] m3]; reflexivity.
Qed.

(** A copy whose target already holds the source's bytes changes
    nothing. *)
Lemma shutil_copy_noop (m : gmap string node) src dst d b :
  m !! src = Some (File b) ->
  copy_target m src dst = d -> d <> src -> d <> EmptyString ->
  m !! d = Some (File b) -> FS.resolve_parent m d = inr tt ->
  shutil_copy src dst m = (Ret d, m).
Proof.
  intros Hs Hd Hne Hnil Hb Hp. rewrite shutil_copy_run. fold (copy_target m src dst).
  cbv zeta. rewrite Hd, copyfile_run. unfold FS.samefile.
  rewrite (bool_decide_eq_false_2 (src = d)) by congruence. rewrite andb_false_r.
  unfold FS.read_file. rewrite Hs.
  rewrite (write_file_writable m d b) by (repeat split; [assumption|assumption|congruence]).
  now rewrite insert_id.
Qed.

Lemma grows_refl (m : gmap string node) : grows m m.
Proof. now intros p. Qed.

Lemma grows_trans (m1 m2 m3 : gmap string node) : grows m1 m2 -> grows m2 m3 -> grows m1 m3.
Proof. intros H1 H2 p Hp. now apply H2, H1. Qed.

Lemma grows_insert_file (m : gmap string node) d b :
  m !! d <> Some Dir -> grows m (<[d := File b]> m).
Proof. intros Hd p Hp. rewrite lookup_insert_ne; [exact Hp|congruence]. Qed.

Lemma grows_assets_made (m : gmap string node) : grows m (assets_made m).
Proof. intros p Hp. now apply assets_made_keeps. Qed.

Lemma grows_resolve_parent (m m' : gmap string node) p :
  grows m m' -> FS.resolve_parent m p = inr tt -> FS.resolve_parent m' p = inr tt.
Proof.
  unfold FS.resolve_parent. intros Hg. destruct (Str.dirname p) as [|c d]; [reflexivity|].
  destruct (m !! String c d) as [[|]|] eqn:Hd; try discriminate.
  - now rewrite (Hg _ Hd).
  - destruct (FS.file_above _ _ _); discriminate.
Qed.

(** [os.makedirs] looks at the three asset directories only. *)
Lemma makedirs_insert_frame (m : gmap string node) p n :
  p ∉ asset_dirs ->
  makedirs (Str.dirname final_output) (<[p := n]> m) =
  (fst (makedirs (Str.dirname final_output) m), <[p := n]> (assets_made m)).
Proof.
  rewrite elem_of_asset_dirs. intros Hp.
  assert (Hp1 : p <> dir_root) by tauto.
  assert (Hp2 : p <> dir_assets) by tauto.
  assert (Hp3 : p <> dir_models) by tauto.
  unfold assets_made. rewrite !makedirs_assets_unfold. unfold FS.path_exists.
  rewrite !mkdir_root, !mkdir_assets. lookups.
  destruct (m !! dir_root) as [[|]|] eqn:E1;
  destruct (m !! dir_assets) as [[|]|] eqn:E2;
  destruct (m !! dir_models) as [[|]|] eqn:E3;
  repeat (first [rewrite mkdir_root | rewrite mkdir_assets | rewrite mkdir_models];
          lookups; rewrite ?E1, ?E2, ?E3; cbn -[lookup insert dir_root dir_assets dir_models]);
  try reflexivity.
  all: f_equal; apply map_eq; intros k; rewrite !lookup_insert;
    repeat case_decide; subst; congruence.
Qed.

(** A copy that went through goes through again, and changes nothing,
    on any file system that has kept the directories and holds the
    source's bytes at the source and at the target. *)
Lemma shutil_copy_repeat (m m' : gmap string node) src dst d m1 b :
  shutil_copy src dst m = (Ret d, m1) ->
  grows m m' -> m' !! src = Some (File b) -> m' !! d = Some (File b) ->
  shutil_copy src dst m' = (Ret d, m').
Proof.
  intros Hc Hg Hs Hb.
  destruct (shutil_copy_Ret _ _ _ _ _ Hc) as (b0 & _ & Hd & Hne & (Hnil & Hp & Hnd) & _).
  apply (shutil_copy_noop m' src dst d b); try assumption.
  - rewrite Hd. unfold copy_target, FS.isdir in *.
    destruct (m !! dst) as [[|]|] eqn:Hdst.
    + subst d. now rewrite Hb.
    + now rewrite (Hg _ Hdst).
    + subst d. now rewrite Hb.
  - now apply (grows_resolve_parent m).
Qed.

Lemma copy_target_final_not_asset_dir (m : gmap string node) src :
  copy_target m src final_output ∉ asset_dirs.
Proof.
  unfold copy_target. destruct (FS.isdir m final_output);
    [|apply final_output_not_asset_dir].
  unfold Str.join. destruct (Str.startswith "/" (Str.basename src)) eqn:E.
  - rewrite elem_of_asset_dirs. intros [H|[H|H]]; rewrite H in E; discriminate E.
  - change (Str.ends_with_slash final_output) with false. cbv iota beta.
    rewrite elem_of_asset_dirs. unfold final_output, dir_root, dir_assets, dir_models.
    rewrite !append_cons, append_nil_l. intros [H|[H|H]]; discriminate H.
Qed.

(** Running the calls of the fallback branch a second time, on the file
    system the first run left: the same result and no change. *)
Lemma fallback_calls_again input_path output_path (m : gmap string node) r m' :
  fallback_calls input_path output_path m = (r, m') ->
  fallback_calls input_path output_path m' = (r, m').
Proof.
  intros H. assert (H0 := H). rewrite fallback_calls_run in H.
  destruct (shutil_copy input_path (sibling output_path) m) as [[d1|r1] m1] eqn:Hc1.
  2: { injection H as <- <-. apply shutil_copy_Raise in Hc1 as Hm. now subst m1. }
  destruct (shutil_copy_Ret _ _ _ _ _ Hc1) as (b & Hs & Hd1 & Hne1 & Hw1 & Hm1).
  assert (G1 : grows m m1) by (rewrite Hm1; apply grows_insert_file, Hw1).
  assert (Hs1 : m1 !! input_path = Some (File b)) by (now rewrite Hm1, lookup_insert_ne).
  assert (Hb1 : m1 !! d1 = Some (File b)) by (rewrite Hm1; apply lookup_insert_eq).
  assert (Hmk := makedirs_assets_again m1).
  assert (G2 := grows_assets_made m1).
  assert (Hs2 := assets_made_keeps m1 _ _ Hs1).
  assert (Hb2 := assets_made_keeps m1 _ _ Hb1).
  unfold assets_made in Hmk, G2, Hs2, Hb2.
  destruct (makedirs (Str.dirname final_output) m1) as [[[]|r2] m2] eqn:Hmk1;
    cbn [fst snd] in Hmk, G2, Hs2, Hb2.
  2: { injection H as <- <-. rewrite fallback_calls_run.
       rewrite (shutil_copy_repeat m m2 _ _ d1 m1 b Hc1 (grows_trans _ _ _ G1 G2) Hs2 Hb2).
       now rewrite Hmk. }
  destruct (shutil_copy input_path final_output m2) as [[d3|r3] m3] eqn:Hc3.
  2: { injection H as <- <-. apply shutil_copy_Raise in Hc3 as Hm. subst m3.
       rewrite fallback_calls_run.
       rewrite (shutil_copy_repeat m m2 _ _ d1 m1 b Hc1 (grows_trans _ _ _ G1 G2) Hs2 Hb2).
       now rewrite Hmk, Hc3. }
  injection H as <- <-.
  destruct (shutil_copy_Ret _ _ _ _ _ Hc3) as (b3 & Hs3 & Hd3 & Hne3 & Hw3 & Hm3).
  rewrite Hs2 in Hs3. injection Hs3 as <-.
  assert (G3 : grows m2 m3) by (rewrite Hm3; apply grows_insert_file, Hw3).
  assert (Hs4 : m3 !! input_path = Some (File b)) by (now rewrite Hm3, lookup_insert_ne).
  assert (Hb3 : m3 !! d3 = Some (File b)) by (rewrite Hm3; apply lookup_insert_eq).
  assert (Hb4 : m3 !! d1 = Some (File b)).
  { rewrite Hm3. destruct (decide (d3 = d1)) as [->|Hne]; [apply lookup_insert_eq|].
    now rewrite lookup_insert_ne. }
  rewrite fallback_calls_run.
  rewrite (shutil_copy_repeat m m3 _ _ d1 m1 b Hc1
             (grows_trans _ _ _ G1 (grows_trans _ _ _ G2 G3)) Hs4 Hb4).
  assert (Hmk3 : makedirs (Str.dirname final_output) m3 = (Ret tt, m3)).
  { rewrite Hm3 at 1. rewrite makedirs_insert_frame
      by (rewrite Hd3; apply copy_target_final_not_asset_dir).
    unfold assets_made. rewrite Hmk. cbn [fst snd]. now rewrite Hm3. }
  rewrite Hmk3.
  now rewrite (shutil_copy_repeat m2 m3 _ _ d3 m3 b Hc3 G3 Hs4 Hb3).
Qed.

(** What the calls leave: the directories that were there. *)
Lemma fallback_calls_grows input_path output_path (m : gmap string node) r m' :
  fallback_calls input_path output_path m = (r, m') -> grows m m'.
Proof.
  rewrite fallback_calls_run.
  destruct (shutil_copy input_path (sibling output_path) m) as [[d1|r1] m1] eqn:Hc1.
  2: { intros [= _ <-]. apply shutil_copy_Raise in Hc1 as ->. apply grows_refl. }
  destruct (shutil_copy_Ret _ _ _ _ _ Hc1) as (b & Hs & Hd1 & Hne1 & Hw1 & Hm1).
  assert (G1 : grows m m1) by (rewrite Hm1; apply grows_insert_file, Hw1).
  assert (G2 := grows_assets_made m1). unfold assets_made in G2.
  destruct (makedirs (Str.dirname final_output) m1) as [[[]|r2] m2]; cbn [snd] in G2.
  2: { intros [= _ <-]. eapply grows_trans; eassumption. }
  destruct (shutil_copy input_path final_output m2) as [[d3|r3] m3] eqn:Hc3.
  2: { intros [= _ <-]. apply shutil_copy_Raise in Hc3 as ->.
       eapply grows_trans; eassumption. }
  intros [= _ <-].
  destruct (shutil_copy_Ret _ _ _ _ _ Hc3) as (b3 & _ & _ & _ & Hw3 & ->).
  eapply grows_trans; [eassumption|]. eapply grows_trans; [eassumption|].
  apply grows_insert_file, Hw3.
Qed.

(** An output path that cannot be written before the fallback calls
    cannot be written after them either.  The only directories they
    create are the asset directories, and a sibling path that could be
    written in one of them means the directory was there already. *)
Lemma not_writable_persists input_path output_path (m : gmap string node) r m' :
  well_formed m ->
  ~ writable m output_path ->
  fallback_calls input_path output_path m = (r, m') ->
  ~ writable m' output_path.
Proof.
  intros Hwf Hnw H (Hnil & Hp' & Hnd').
  assert (G := fallback_calls_grows _ _ _ _ _ H).
  assert (Hnd : m !! output_path <> Some Dir) by (intros Hd; apply Hnd', G, Hd).
  assert (Hp : FS.resolve_parent m output_path <> inr tt)
    by (intros Hp; apply Hnw; repeat split; assumption).
  unfold FS.resolve_parent in Hp, Hp'.
  destruct (Str.dirname output_path) as [|c P0] eqn:HP; [congruence|].
  set (P := String c P0) in *.
  assert (HP' : m' !! P = Some Dir).
  { destruct (m' !! P) as [[|]|]; try congruence.
    match type of Hp' with
    | context [FS.file_above ?n ?a ?d] => destruct (FS.file_above n a d); discriminate
    end. }
  assert (HPm : m !! P <> Some Dir) by (intros Hd; rewrite Hd in Hp; congruence).
  clear Hp Hp'. rewrite fallback_calls_run in H.
  destruct (shutil_copy input_path (sibling output_path) m) as [[d1|r1] m1] eqn:Hc1.
  2: { injection H as _ <-. apply shutil_copy_Raise in Hc1 as ->. contradiction. }
  destruct (shutil_copy_Ret _ _ _ _ _ Hc1) as (b & Hs & Hd1 & Hne1 & Hw1 & Hm1).
  assert (H2 : assets_made m1 !! P = Some Dir).
  { unfold assets_made.
    destruct (makedirs (Str.dirname final_output) m1) as [[[]|r2] m2]; cbn [snd].
    2: { now injection H as _ <-. }
    destruct (shutil_copy input_path final_output m2) as [[d3|r3] m3] eqn:Hc3.
    2: { injection H as _ <-. now apply shutil_copy_Raise in Hc3 as ->. }
    injection H as _ <-.
    destruct (shutil_copy_Ret _ _ _ _ _ Hc3) as (b3 & _ & _ & _ & _ & ->).
    destruct (decide (d3 = P)) as [->|Hne3].
    - rewrite lookup_insert_eq in HP'. discriminate.
    - now rewrite lookup_insert_ne in HP'. }
  assert (H1 : m1 !! P = None /\ P ∈ asset_dirs).
  { destruct (makedirs_assets_effect m1 P) as [He|(Hin & Hn & _)]; [|now split].
    exfalso. rewrite H2 in He. symmetry in He. rewrite Hm1 in He.
    destruct (decide (d1 = P)) as [->|Hne].
    - rewrite lookup_insert_eq in He. discriminate.
    - rewrite lookup_insert_ne in He by exact Hne. contradiction. }
  destruct H1 as [H1 Hin].
  assert (HmP : m !! P = None).
  { rewrite Hm1 in H1. destruct (decide (d1 = P)) as [->|Hne].
    - rewrite lookup_insert_eq in H1. discriminate.
    - now rewrite lookup_insert_ne in H1. }
  assert (Hsib : Str.dirname (sibling output_path) = P).
  { rewrite dirname_sibling_asset_dir; rewrite HP; [reflexivity|exact Hin]. }
  assert (Hres : FS.resolve_parent m (sibling output_path) <> inr tt).
  { unfold FS.resolve_parent. rewrite Hsib. unfold P in *. rewrite HmP.
    destruct (FS.file_above _ _ _); discriminate. }
  apply Hres. unfold copy_target, FS.isdir in Hd1.
  destruct (m !! sibling output_path) as [[|]|] eqn:Hsd.
  - subst d1. apply Hw1.
  - exact (Hwf _ _ Hsd).
  - subst d1. apply Hw1.
Qed.

Section Twice.

Variable onnx_load : list byte -> exn + Session.
Variable tflite_convert : Session -> string -> string -> list Z -> exn + list byte.

(** Step 1 goes through, or the function leaves the file system as it
    found it. *)
Lemma convert_to_tflite_loads_or_unchanged (m : gmap string node) input_path output_path :
  (exists b s i o, loads onnx_load m input_path b s i o) \/
  fs (snd (convert_to_tflite onnx_load tflite_convert input_path output_path (start m))) = m.
Proof.
  destruct (FS.path_exists m input_path) eqn:Hex.
  - destruct (step1_cases onnx_load m input_path Hex) as [H|[e He]]; [now left|right].
    now rewrite (convert_to_tflite_step1_raises _ _ _ _ (start m) e He).
  - right. unfold FS.path_exists in Hex.
    destruct (m !! input_path) as [n|] eqn:Hf; [discriminate|].
    unfold convert_to_tflite, InferenceSession. run. now rewrite Hf.
Qed.

(** After a raised attempt the function does to the file system what
    the calls of the fallback branch do, and returns what they return. *)
Lemma convert_to_tflite_fallback_calls (m : gmap string node) input_path output_path
    b s i o e :
  loads onnx_load m input_path b s i o ->
  attempt_raises tflite_convert m s i o output_path e ->
  let r := convert_to_tflite onnx_load tflite_convert input_path output_path (start m) in
  (fst r, fs (snd r)) = fallback_calls input_path output_path m.
Proof.
  intros Hl Ha.
  destruct (convert_to_tflite_falls_back onnx_load tflite_convert m input_path output_path
              b s i o e Hl Ha) as (ls & _ & Hr).
  cbv zeta. rewrite Hr. apply fallback_copy_calls.
Qed.

End Twice.

(** ** Steps on the file system *)

Lemma fs_steps_weaken (W D W' D' : string -> Prop) m m' :
  (forall p, W p -> W' p) -> (forall p, D p -> D' p) ->
  fs_steps W D m m' -> fs_steps W' D' m m'.
Proof.
  intros HW HD H. induction H as [|m1 m2 m3 Hs _ IH]; [apply rtc_refl|].
  eapply rtc_l; [|exact IH].
  destruct Hs; [apply fs_step_write|apply fs_step_mkdir]; auto.
Qed.

Lemma mkdir_inr (m : gmap string node) p m' :
  FS.mkdir m p = inr m' ->
  p <> EmptyString /\ FS.resolve_parent m p = inr tt /\ m !! p = None /\ m' = <[p := Dir]> m.
Proof.
  unfold FS.mkdir. destruct p as [|c p]; [discriminate|].
  destruct (FS.resolve_parent m (String c p)) as [e|[]]; [discriminate|].
  destruct (m !! String c p) eqn:E; [discriminate|]. intros [= <-]. auto.
Qed.

(** What a step leaves untouched, and what the two kinds of step keep. *)
Lemma fs_steps_persists W D (m m' : gmap string node) : fs_steps W D m m' -> persists m m'.
Proof.
  intros H. induction H as [m|m1 m2 m3 Hs _ IH].
  - intros p [b|] Hp; eauto.
  - intros p n Hp.
    assert (H2 : exists n', m2 !! p = Some n' /\
                            match n with Dir => n' = Dir | File _ => exists b', n' = File b' end).
    { destruct Hs as [q d _ (_ & _ & Hq)|q _ _ _ Hq].
      - destruct (decide (q = p)) as [->|Hne].
        + rewrite lookup_insert_eq. eexists. split; [reflexivity|].
          destruct n; [eauto|congruence].
        + rewrite lookup_insert_ne by exact Hne. exists n. split; [exact Hp|].
          destruct n; eauto.
      - rewrite lookup_insert_ne by congruence. exists n. split; [exact Hp|].
        destruct n; eauto. }
    destruct H2 as (n' & Hn' & Hk). specialize (IH p n' Hn').
    destruct n as [b|]; [destruct Hk as [b' ->]|subst n']; exact IH.
Qed.



Lemma fs_step_grows W D (m m' : gmap string node) : fs_step W D m m' -> grows m m'.
Proof.
  intros [q d _ (_ & _ & Hq)|q _ _ _ Hq].
  - now apply grows_insert_file.
  - intros p Hp. rewrite lookup_insert_ne; [exact Hp|congruence].
Qed.

Lemma fs_steps_well_formed W D (m m' : gmap string node) :
  fs_steps W D m m' -> well_formed m -> well_formed m'.
Proof.
  intros H. induction H as [m|m1 m2 m3 Hs _ IH]; [auto|].
  intros Hwf. apply IH. intros p n Hp.
  assert (G := fs_step_grows _ _ _ _ Hs).
  destruct Hs as [q d _ (_ & Hq & _)|q _ _ Hq _].
  - destruct (decide (q = p)) as [->|Hne].
    + now apply (grows_resolve_parent m1).
    + rewrite lookup_insert_ne in Hp by exact Hne.
      apply (grows_resolve_parent m1); [exact G|]. exact (Hwf _ _ Hp).
  - destruct (decide (q = p)) as [->|Hne].
    + now apply (grows_resolve_parent m1).
    + rewrite lookup_insert_ne in Hp by exact Hne.
      apply (grows_resolve_parent m1); [exact G|]. exact (Hwf _ _ Hp).
Qed.

(** ** How the calls act *)

Section Acts.

Context {S : Type} (proj : S -> gmap string node) (W D : string -> Prop).

Lemma acts_ret {A} (a : A) : acts proj W D (ret a).
Proof. intros s r s' [= _ <-]. apply rtc_refl. Qed.

Lemma acts_raise {A} (e : exn) : acts proj W D (raise (A := A) e).
Proof. intros s r s' [= _ <-]. apply rtc_refl. Qed.

Lemma acts_sys_exit {A} (code : Z) : acts proj W D (sys_exit (A := A) code).
Proof. intros s r s' [= _ <-]. apply rtc_refl. Qed.

Lemma acts_lift {A} (x : exn + A) : acts proj W D (lift x).
Proof. destruct x; [apply acts_raise|apply acts_ret]. Qed.

Lemma acts_get : acts proj W D get.
Proof. intros s r s' [= _ <-]. apply rtc_refl. Qed.

Lemma acts_first {A} (l : list A) : acts proj W D (first l).
Proof. destruct l; [apply acts_raise|apply acts_ret]. Qed.

Lemma acts_bind {A B} (m : ST S A) (k : A -> ST S B) :
  acts proj W D m -> (forall a, acts proj W D (k a)) -> acts proj W D (bind m k).
Proof.
  intros Hm Hk s r s'. unfold bind. destruct (m s) as [[a|x] s1] eqn:E.
  - intros H. etrans; [exact (Hm _ _ _ E)|exact (Hk _ _ _ _ H)].
  - intros [= _ <-]. exact (Hm _ _ _ E).
Qed.

Lemma acts_try_except {A} (body : ST S A) catches handler :
  acts proj W D body -> (forall e, acts proj W D (handler e)) ->
  acts proj W D (try_except body catches handler).
Proof.
  intros Hb Hh s r s'. unfold try_except. destruct (body s) as [[a|[e|c]] s1] eqn:E.
  - intros [= _ <-]. exact (Hb _ _ _ E).
  - destruct (catches e).
    + intros H. etrans; [exact (Hb _ _ _ E)|exact (Hh _ _ _ _ H)].
    + intros [= _ <-]. exact (Hb _ _ _ E).
  - intros [= _ <-]. exact (Hb _ _ _ E).
Qed.

Lemma acts_for_each {A} (l : list A) (body : A -> ST S unit) :
  (forall a, acts proj W D (body a)) -> acts proj W D (for_each l body).
Proof.
  intros Hb. induction l as [|a l IH]; [apply acts_ret|].
  apply acts_bind; [apply Hb|intros _; exact IH].
Qed.

End Acts.

Lemma acts_on_fs {A} W D (c : F A) : acts id W D c -> acts fs W D (on_fs c).
Proof.
  intros Hc w r w'. unfold on_fs. destruct (c (fs w)) as [r0 m'] eqn:E.
  intros [= _ <-]. exact (Hc _ _ _ E).
Qed.

Lemma acts_print W D l : acts fs W D (print l).
Proof. intros w r w' [= _ <-]. apply rtc_refl. Qed.

Section FileCalls.

Context (W D : string -> Prop).

Lemma acts_path_exists p : acts id W D (path_exists p).
Proof. apply acts_bind; [apply acts_get|intros; apply acts_ret]. Qed.

Lemma acts_isdir p : acts id W D (isdir p).
Proof. apply acts_bind; [apply acts_get|intros; apply acts_ret]. Qed.

Lemma acts_read_file p : acts id W D (read_file p).
Proof. apply acts_bind; [apply acts_get|intros; apply acts_lift]. Qed.

Lemma acts_getsize p : acts id W D (getsize p).
Proof. apply acts_bind; [apply acts_get|intros; apply acts_lift]. Qed.

Lemma acts_write_file p d : W p -> acts id W D (write_file p d).
Proof.
  intros Hp m r m'. rewrite write_file_run.
  destruct (FS.write_file m p d) as [e|m1] eqn:E; intros [= _ <-]; [apply rtc_refl|].
  apply write_file_inr in E as [Hw ->]. apply rtc_once. now apply fs_step_write.
Qed.

Lemma acts_mkdir_exist_ok p : D p -> acts id W D (mkdir_exist_ok p).
Proof.
  intros Hp m r m'. rewrite mkdir_exist_ok_run.
  destruct (FS.mkdir m p) as [e|m1] eqn:E.
  - destruct (FS.isdir m p); intros [= _ <-]; apply rtc_refl.
  - intros [= _ <-]. apply mkdir_inr in E as (H1 & H2 & H3 & ->).
    apply rtc_once. now apply fs_step_mkdir.
Qed.

(** [shutil.copyfile] writes its destination only when it is not the
    source. *)
Lemma acts_copyfile src dst : (dst <> src -> W dst) -> acts id W D (copyfile src dst).
Proof.
  intros Hp m r m'. rewrite copyfile_run. unfold FS.samefile, FS.read_file, FS.path_exists.
  destruct (m !! src) as [[b|]|] eqn:Hs; cbn [andb].
  2,3: destruct (m !! dst); cbn [andb]; try destruct (bool_decide _);
       intros [= _ <-]; apply rtc_refl.
  destruct (decide (src = dst)) as [<-|Hne].
  - rewrite Hs. cbn [andb]. rewrite bool_decide_eq_true_2 by reflexivity.
    intros [= _ <-]. apply rtc_refl.
  - rewrite (bool_decide_eq_false_2 _ Hne), andb_false_r.
    destruct (FS.write_file m dst b) as [e|m1] eqn:E; intros [= _ <-]; [apply rtc_refl|].
    apply write_file_inr in E as [Hw ->]. apply rtc_once.
    apply fs_step_write; [|exact Hw]. apply Hp. congruence.
Qed.

Lemma acts_shutil_copy src dst :
  (forall p, p ∈ copy_targets src dst -> p <> src -> W p) ->
  acts id W D (shutil_copy src dst).
Proof.
  intros Hp. unfold shutil_copy. apply acts_bind; [apply acts_isdir|]. intros d.
  apply acts_bind; [|intros; apply acts_ret].
  apply acts_copyfile. intros Hne. apply Hp; [|exact Hne].
  unfold copy_targets. rewrite !elem_of_cons. destruct d; auto.
Qed.

Lemma acts_makedirs_assets :
  (forall p, p ∈ asset_dirs -> D p) -> acts id W D (makedirs (Str.dirname final_output)).
Proof.
  intros HD m r m'. rewrite makedirs_assets_unfold.
  assert (H1 : D dir_root) by (apply HD, elem_of_asset_dirs; auto).
  assert (H2 : D dir_assets) by (apply HD, elem_of_asset_dirs; auto).
  assert (H3 : D dir_models) by (apply HD, elem_of_asset_dirs; auto).
  assert (A1 := acts_mkdir_exist_ok dir_root H1).
  assert (A2 := acts_mkdir_exist_ok dir_assets H2).
  assert (A3 := acts_mkdir_exist_ok dir_models H3).
  destruct (FS.path_exists m dir_assets); [apply A3|].
  assert (Hin : forall r2 m2,
    (if FS.path_exists m dir_root then mkdir_exist_ok dir_assets m
     else match mkdir_exist_ok dir_root m with
          | (Ret _, m1) => mkdir_exist_ok dir_assets m1
          | (Raise (Exception (FileExistsError _)), m1) => mkdir_exist_ok dir_assets m1
          | r => r
          end) = (r2, m2) -> fs_steps W D m m2).
  { intros r2 m2. destruct (FS.path_exists m dir_root); [apply A2|].
    destruct (mkdir_exist_ok dir_root m) as [[[]|[[]|]] m1] eqn:E1;
      try (intros [= _ <-]; exact (A1 _ _ _ E1));
      intros E2; (etrans; [exact (A1 _ _ _ E1)|exact (A2 _ _ _ E2)]). }
  destruct (if FS.path_exists m dir_root then _ else _) as [[[]|[[]|]] m2] eqn:E;
    try (intros [= _ <-]; exact (Hin _ _ eq_refl));
    intros E3; (etrans; [exact (Hin _ _ eq_refl)|exact (A3 _ _ _ E3)]).
Qed.

End FileCalls.

(** ** How the scripts act *)

Lemma acts_InferenceSession onnx_load W D path :
  acts id W D (InferenceSession onnx_load path).
Proof.
  unfold InferenceSession. apply acts_bind; [apply acts_get|]. intros m.
  destruct (m !! path) as [[b|]|]; [apply acts_lift|apply acts_raise|apply acts_raise].
Qed.

(** The script level: printing and control flow leave the file system
    alone; what is left to show is how each file system call acts. *)
Ltac acts_steps :=
  repeat lazymatch goal with
  | |- acts fs _ _ (on_fs _) =>
      apply acts_on_fs;
      first [ apply acts_getsize | apply acts_path_exists | apply acts_InferenceSession
            | idtac ]
  | |- acts fs _ _ _ =>
      first
        [ apply acts_print | apply acts_ret | apply acts_raise | apply acts_sys_exit
        | apply acts_lift | apply acts_first
        | apply acts_bind; [|intros ?]
        | apply acts_try_except; [|intros ?]
        | apply acts_for_each; intros ? ]
  end.

Section ScriptActs.

Variable onnx_load : list byte -> exn + Session.
Variable tflite_convert : Session -> string -> string -> list Z -> exn + list byte.

(** [convert_to_tflite] changes the file system by writing files at the
    output path and at the targets of its two copies, the source apart,
    and by making asset directories, and in no other way. *)
Lemma convert_to_tflite_acts input_path output_path :
  acts fs (transcode_writes input_path output_path) is_asset_dir
    (convert_to_tflite onnx_load tflite_convert input_path output_path).
Proof.
  unfold convert_to_tflite, conversion_attempt, fallback_copy. acts_steps.
  - apply acts_write_file. now left.
  - apply acts_shutil_copy. intros p Hp Hne. right. split; [exact Hne|]. now left.
  - apply acts_makedirs_assets. auto.
  - apply acts_shutil_copy. intros p Hp Hne. right. split; [exact Hne|]. now right.
Qed.

Lemma convert_to_tflite_main_acts :
  acts fs (transcode_writes "silero_vad.onnx" "silero_vad.tflite") is_asset_dir
    (convert_to_tflite_main onnx_load tflite_convert).
Proof.
  unfold convert_to_tflite_main. cbv zeta.
  apply acts_bind; [acts_steps|]. intros found.
  apply acts_bind; [destruct (negb found); acts_steps|]. intros _.
  apply convert_to_tflite_acts.
Qed.

(** [inspect_model] changes the file system by writing the target of its
    copy, which is not the source, and in no other way. *)
Lemma inspect_model_acts input_path :
  acts fs (inspect_writes input_path) nowhere (inspect_model onnx_load input_path).
Proof.
  unfold inspect_model, print_node_arg. acts_steps.
  apply acts_shutil_copy. intros p Hp Hne. now split.
Qed.

Lemma convert_vad_main_acts :
  acts fs (inspect_writes "silero_vad.onnx") nowhere (convert_vad_main onnx_load).
Proof.
  unfold convert_vad_main. cbv zeta.
  apply acts_bind; [acts_steps|]. intros found.
  apply acts_bind; [destruct (negb found); acts_steps|]. intros _.
  apply inspect_model_acts.
Qed.

End ScriptActs.

(** ** The runs of [convert_to_tflite], one by one *)

Lemma shutil_copy_same_file (m : gmap string node) src b :
  m !! src = Some (File b) ->
  shutil_copy src src m = (Raise (Exception (SameFileError src src)), m).
Proof.
  intros Hs. rewrite shutil_copy_run. unfold FS.isdir. rewrite Hs. cbv zeta.
  rewrite copyfile_run. unfold FS.samefile, FS.path_exists. rewrite Hs. cbn [andb].
  now rewrite bool_decide_eq_true_2.
Qed.

(** With the sibling path equal to the input path the fallback branch
    stops at its first copy. *)
Lemma fallback_copy_same_file input_path output_path e w b :
  fs w !! input_path = Some (File b) ->
  sibling output_path = input_path ->
  fallback_copy input_path output_path e w =
  (Raise (Exception (SameFileError input_path input_path)),
   {| fs := fs w; stdout := stdout w ++ fallback_lines e |}).
Proof.
  intros Hs Heq. rewrite fallback_copy_run. cbv zeta. rewrite Heq.
  now rewrite (shutil_copy_same_file _ _ b Hs).
Qed.

Lemma makedirs_assets_Ret (m : gmap string node) :
  fst (makedirs (Str.dirname final_output) m) = Ret tt ->
  assets_made m !! dir_models = Some Dir.
Proof.
  unfold assets_made. makedirs_table m; cbn [fst snd]; try discriminate; intros _;
    lookups; try assumption; reflexivity.
Qed.

Section Runs.

Variable onnx_load : list byte -> exn + Session.
Variable tflite_convert : Session -> string -> string -> list Z -> exn + list byte.

(** Step 1 raises, the attempt succeeds, or the fallback branch runs. *)
Lemma convert_to_tflite_cases (m : gmap string node) input_path output_path :
  let r := convert_to_tflite onnx_load tflite_convert input_path output_path (start m) in
  (exists e,
     r = (Raise (Exception e),
          {| fs := m; stdout := [Text ("Loading ONNX model from: " +:+ input_path)] |})) \/
  (exists b s i o t,
     loads onnx_load m input_path b s i o /\
     tflite_convert s (name i) (name o) [1; 1; 256; 1]%Z = inr t /\
     writable m output_path /\
     r = (Ret tt,
          {| fs := <[output_path := File t]> m;
             stdout := prologue input_path (name i) (name o) ++
               [ Text ("Saving TFLite model to: " +:+ output_path);
                 Text "Model converted successfully!";
                 SizeLine "Output size: " (Some (length t)) ] |})) \/
  (exists b s i o e ls,
     loads onnx_load m input_path b s i o /\
     attempt_raises tflite_convert m s i o output_path e /\
     (ls = [] \/ ls = [Text ("Saving TFLite model to: " +:+ output_path)]) /\
     r = fallback_copy input_path output_path e
           {| fs := m; stdout := prologue input_path (name i) (name o) ++ ls |}).
Proof.
  intros r. unfold r.
  destruct (FS.path_exists m input_path) eqn:Hex.
  - destruct (step1_cases onnx_load m input_path Hex) as [(b & s & i & o & Hl)|[e He]].
    + destruct (conversion_attempt_cases tflite_convert s i o output_path m)
        as [(t & Hc & Hw)|(e & Ha)].
      * right. left. exists b, s, i, o, t. repeat (split; [assumption|]).
        exact (convert_to_tflite_converted onnx_load tflite_convert m input_path output_path
                 b s i o t Hl Hc Hw).
      * right. right.
        destruct (convert_to_tflite_falls_back onnx_load tflite_convert m input_path
                    output_path b s i o e Hl Ha) as (ls & Hls & Hr).
        exists b, s, i, o, e, ls. repeat (split; [assumption|]). exact Hr.
    + left. exists e. now rewrite (convert_to_tflite_step1_raises _ _ _ _ (start m) e He).
  - left. unfold FS.path_exists in Hex.
    destruct (m !! input_path) as [n|] eqn:Hf; [discriminate|].
    eexists. unfold convert_to_tflite, InferenceSession. run. rewrite Hf. reflexivity.
Qed.

(** A run reports nothing and raises, or reports Converted and has
    written the model, or reports FallbackCopied and has made both
    copies. *)
Lemma convert_to_tflite_outcomes (m : gmap string node) input_path output_path :
  let r := convert_to_tflite onnx_load tflite_convert input_path output_path (start m) in
  (fst r <> Ret tt /\ ~ reports_Converted (snd r) /\ ~ reports_FallbackCopied (snd r)) \/
  (fst r = Ret tt /\ reports_Converted (snd r) /\ ~ reports_FallbackCopied (snd r) /\
   exists b s i o t,
     loads onnx_load m input_path b s i o /\
     tflite_convert s (name i) (name o) [1; 1; 256; 1]%Z = inr t /\
     fs (snd r) !! output_path = Some (File t)) \/
  (fst r = Ret tt /\ ~ reports_Converted (snd r) /\ reports_FallbackCopied (snd r) /\
   exists b d,
     m !! input_path = Some (File b) /\
     fs (snd r) !! copy_target m input_path (sibling output_path) = Some (File b) /\
     d ∈ copy_targets input_path final_output /\
     fs (snd r) !! d = Some (File b) /\
     fs (snd r) !! dir_models = Some Dir).
Proof.
  intros r.
  destruct (convert_to_tflite_cases m input_path output_path)
    as [[e Hr]|[(b & s & i & o & t & Hl & Hc & Hw & Hr)
               |(b & s & i & o & e & ls & Hl & Ha & Hls & Hr)]];
    fold r in Hr.
  - left. rewrite Hr. split; [discriminate|]. split; not_printed.
  - right. left. rewrite Hr. cbn [fst snd fs]. split; [reflexivity|]. split; [|split].
    + unfold reports_Converted. cbn [stdout]. rewrite elem_of_app, !elem_of_cons. auto.
    + not_printed.
    + exists b, s, i, o, t. repeat (split; [assumption|]). apply lookup_insert_eq.
  - assert (Hf := loads_file _ _ _ _ _ _ _ Hl).
    assert (Hnc : ~ reports_Converted (snd r)).
    { rewrite Hr. apply fallback_copy_not_Converted. destruct Hls as [-> | ->]; not_printed. }
    rewrite Hr in *. clear Hr. revert Hnc. rewrite fallback_copy_run. cbv zeta. cbn [fs stdout].
    destruct (shutil_copy input_path (sibling output_path) m) as [[d1|r1] m1] eqn:Hc1.
    2: { intros Hnc. left. split; [discriminate|]. split; [exact Hnc|].
         destruct Hls as [-> | ->]; not_printed. }
    destruct (shutil_copy_Ret _ _ _ _ _ Hc1) as (b1 & Hb1 & Hd1 & Hne1 & Hw1 & Hm1).
    rewrite Hf in Hb1. injection Hb1 as <-.
    assert (Hmk := makedirs_assets_Ret m1). unfold assets_made in Hmk.
    destruct (makedirs (Str.dirname final_output) m1) as [[[]|r2] m2] eqn:Hmk1.
    2: { intros Hnc. left. split; [discriminate|]. split; [exact Hnc|].
         destruct Hls as [-> | ->]; not_printed. }
    cbn [fst snd] in Hmk. specialize (Hmk eq_refl).
    assert (H2 : m2 = assets_made m1) by (unfold assets_made; now rewrite Hmk1).
    destruct (shutil_copy input_path final_output m2) as [[d3|r3] m3] eqn:Hc3.
    2: { intros Hnc. left. split; [discriminate|]. split; [exact Hnc|].
         destruct Hls as [-> | ->]; not_printed. }
    destruct (shutil_copy_Ret _ _ _ _ _ Hc3) as (b3 & Hb3 & Hd3 & Hne3 & Hw3 & Hm3).
    assert (Hs2 : m2 !! input_path = Some (File b)).
    { rewrite H2. apply assets_made_keeps. now rewrite Hm1, lookup_insert_ne. }
    rewrite Hs2 in Hb3. injection Hb3 as <-.
    intros Hnc. right. right. cbn [fst snd fs]. split; [reflexivity|]. split; [exact Hnc|].
    split.
    { unfold reports_FallbackCopied. cbn [stdout]. rewrite !elem_of_app, !elem_of_cons. auto. }
    exists b, d3. split; [exact Hf|]. rewrite <- Hd1. split; [|split; [|split]].
    + rewrite Hm3. destruct (decide (d3 = d1)) as [->|Hne]; [apply lookup_insert_eq|].
      rewrite lookup_insert_ne by exact Hne. rewrite H2. apply assets_made_keeps.
      rewrite Hm1. apply lookup_insert_eq.
    + rewrite Hd3. unfold copy_target, copy_targets. rewrite !elem_of_cons.
      destruct (FS.isdir m2 final_output); auto.
    + rewrite Hm3. apply lookup_insert_eq.
    + rewrite Hm3. rewrite lookup_insert_ne; [exact Hmk|].
      intros ->. destruct Hw3 as (_ & _ & Hw3). contradiction.
Qed.

End Runs.

(** ** Plain paths *)

Lemma components_cons p : exists h t, Str.components p = h :: t.
Proof.
  destruct p as [|c p]; [now exists EmptyString, []|]. cbn [Str.components].
  destruct (Str.is_slash c); [now eexists _, _|].
  destruct (Str.components p); now eexists _, _.
Qed.

(** The first component is the path up to its first slash. *)
Lemma components_head p h t : Str.components p = h :: t -> exists rest, p = h +:+ rest.
Proof.
  revert h t. induction p as [|c p IH]; intros h t.
  - intros [= <- <-]. now exists EmptyString.
  - cbn [Str.components]. destruct (Str.is_slash c).
    + intros [= <- <-]. now exists (String c p).
    + destruct (Str.components p) as [|h' t'] eqn:E.
      * intros [= <- <-]. now exists p.
      * intros [= <- <-]. destruct (IH h' t' eq_refl) as [rest ->]. now exists rest.
Qed.

Lemma prefix_app p h rest :
  String.prefix p h = true -> String.prefix p (h +:+ rest) = true.
Proof.
  revert h. induction p as [|a p IH]; intros h; [now destruct h, rest|].
  destruct h as [|c h]; [discriminate|]. rewrite append_cons. cbn [String.prefix].
  destruct (ascii_dec a c); [apply IH|discriminate].
Qed.

Lemma components_app_no_slash x p h t :
  Str.lacks "/" x = true -> Str.components p = h :: t ->
  Str.components (x +:+ p) = (x +:+ h) :: t.
Proof.
  intros Hx Hp. induction x as [|a x IH]; [exact Hp|].
  cbn [Str.lacks] in Hx. apply andb_true_iff in Hx as [Ha Hx].
  rewrite append_cons. cbn [Str.components]. unfold Str.is_slash.
  apply negb_true_iff in Ha. rewrite Ha, (IH Hx). reflexivity.
Qed.

(** Replacing [.tflite] works inside the components: no slash comes or
    goes. *)
Lemma Replaced_components s t :
  Replaced ".tflite" ".onnx" s t ->
  Forall2 (Replaced ".tflite" ".onnx") (Str.components s) (Str.components t).
Proof.
  induction 1 as [|s t HR IH|c s t Hp HR IH].
  - repeat constructor.
  - destruct (components_cons s) as (h & tl & Hs), (components_cons t) as (h' & tl' & Ht).
    rewrite Hs, Ht in IH. inversion IH as [|? ? ? ? Hh Htl]; subst.
    rewrite (components_app_no_slash ".tflite" s h tl eq_refl Hs).
    rewrite (components_app_no_slash ".onnx" t h' tl' eq_refl Ht).
    constructor; [now constructor|assumption].
  - cbn [Str.components]. destruct (Str.is_slash c); [constructor; [constructor|exact IH]|].
    destruct (components_cons s) as (h & tl & Hs), (components_cons t) as (h' & tl' & Ht).
    rewrite Hs, Ht in *. inversion IH as [|? ? ? ? Hh Htl]; subst.
    constructor; [|assumption]. apply Replaced_keep; [|assumption].
    destruct (Str.startswith ".tflite" (String c h)) eqn:E; [|reflexivity].
    destruct (components_head s h tl Hs) as [rest ->].
    rewrite <- Hp. symmetry. unfold Str.startswith in *.
    change (String c (h +:+ rest)) with (String c h +:+ rest). now apply prefix_app.
Qed.

(** A short result was not touched by the replacement. *)
Lemma Replaced_short s t :
  Replaced ".tflite" ".onnx" s t -> String.length t < 5 -> s = t.
Proof.
  induction 1 as [|s t HR IH|c s t Hp HR IH]; intros Hlen.
  - reflexivity.
  - rewrite length_app_string in Hlen. simpl in Hlen. lia.
  - simpl in Hlen. f_equal. apply IH. lia.
Qed.

Lemma Replaced_is_name c c' :
  Replaced ".tflite" ".onnx" c c' -> Str.is_name c = true -> Str.is_name c' = true.
Proof.
  intros HR Hc. destruct (Str.is_name c') eqn:E; [reflexivity|].
  assert (Hlen : String.length c' < 5).
  { unfold Str.is_name in E.
    apply andb_false_iff in E as [E|E]; [apply andb_false_iff in E as [E|E]|];
      apply negb_false_iff, String.eqb_eq in E; subst c'; simpl; lia. }
  rewrite (Replaced_short _ _ HR Hlen) in Hc. congruence.
Qed.

(** The sibling of a plain path is a plain path. *)
Lemma plain_sibling output_path :
  Str.plain output_path = true -> Str.plain (sibling output_path) = true.
Proof.
  unfold Str.plain, sibling.
  assert (HR : Replaced ".tflite" ".onnx" output_path
                 (Str.replace ".tflite" ".onnx" output_path))
    by (apply replace_Replaced; discriminate).
  apply Replaced_components in HR.
  induction HR as [|c c' l l' Hc _ IH]; [reflexivity|].
  cbn [forallb]. intros [H1 H2]%andb_true_iff.
  now rewrite (Replaced_is_name _ _ Hc H1), (IH H2).
Qed.

(** ** The fallback branch with directories as destinations *)














(** ** When the fallback branch returns *)




(** ** When the first copy raises *)



(** * The claims *)

(** ** C1 *)




(** ** C2 *)

(** C2, on the code.  In the script the sibling path of
    [silero_vad.tflite] is [silero_vad.onnx], the source itself.  So
    whenever the conversion attempt of the script raises, the first
    [shutil.copy] of the fallback branch raises [SameFileError]: the
    process ends with status 1, FallbackCopied is not reported, and the
    file system is unchanged, so no copy is made at
    [speech_world/assets/models/silero_vad.onnx]. *)
Theorem C2_script_fallback_copies_nothing onnx_load tflite_convert
    (m : gmap string node) b s i o e :
  loads onnx_load m "silero_vad.onnx" b s i o ->
  attempt_raises tflite_convert m s i o "silero_vad.tflite" e ->
  let r := convert_to_tflite_main onnx_load tflite_convert (start m) in
  fst r = Raise (Exception (SameFileError "silero_vad.onnx" "silero_vad.onnx")) /\
  exit_status (fst r) = 1%Z /\
  reports_failure e (snd r) /\
  ~ reports_FallbackCopied (snd r) /\
  fs (snd r) = m /\
  fs (snd r) !! final_output = m !! final_output.
Proof.
  intros Hl Ha r.
  assert (Hr : exists ls,
    (ls = [] \/ ls = [Text ("Saving TFLite model to: " +:+ "silero_vad.tflite")]) /\ r =
    (Raise (Exception (SameFileError "silero_vad.onnx" "silero_vad.onnx")),
     {| fs := m;
        stdout := (prologue "silero_vad.onnx" (name i) (name o) ++ ls) ++ fallback_lines e |})).
  { unfold r. rewrite convert_to_tflite_main_found by (eapply loads_path_exists; eassumption).
    rewrite (convert_to_tflite_enters_try _ _ _ _ (start m) b s i o Hl).
    unfold try_except.
    destruct (conversion_attempt_raises tflite_convert s i o "silero_vad.tflite"
                (add_lines (start m) (prologue "silero_vad.onnx" (name i) (name o))) e Ha)
      as (ls & Hls & ->).
    exists ls. split; [exact Hls|]. cbn [any_Exception]. rewrite fallback_copy_run.
    change (sibling "silero_vad.tflite") with "silero_vad.onnx".
    cbv zeta. cbn [fs add_lines start stdout].
    rewrite shutil_copy_run. unfold FS.isdir. rewrite (loads_file _ _ _ _ _ _ _ Hl).
    cbn zeta. rewrite copyfile_run. unfold FS.samefile, FS.path_exists.
    rewrite (loads_file _ _ _ _ _ _ _ Hl). cbn [andb].
    rewrite bool_decide_eq_true_2 by reflexivity. reflexivity. }
  destruct Hr as (ls & Hls & ->). cbn [fst snd fs]. repeat split.
  - unfold reports_failure, fallback_lines. cbn [stdout].
    rewrite elem_of_app. right. rewrite !elem_of_cons. auto.
  - unfold reports_FallbackCopied. cbn [stdout].
    destruct Hls as [-> | ->]; not_printed.
Qed.

Lemma C2_witness :
  let r := convert_to_tflite_main load_vad convert_never (start model_only) in
  fst r = Raise (Exception (SameFileError "silero_vad.onnx" "silero_vad.onnx")) /\
  exit_status (fst r) = 1%Z /\
  fs (snd r) !! final_output = None.
Proof.
  assert (Hl := model_only_loads).
  assert (Ha : attempt_raises convert_never model_only vad_session
                 {| name := "input"; shape := [DimNone; DimNone]; type := "tensor(float)" |}
                 {| name := "output"; shape := [DimNone; DimInt 1]; type := "tensor(float)" |}
                 "silero_vad.tflite" (ToolchainError "cannot trace a symbolic tensor"))
    by (apply raises_toolchain; reflexivity).
  destruct (C2_script_fallback_copies_nothing load_vad convert_never model_only
              _ _ _ _ _ Hl Ha) as (H1 & H2 & _ & _ & _ & H6).
  split; [exact H1|split; [exact H2|]].
  rewrite H6. reflexivity.
Defined.


(** ** C3 *)

(** C3.  If the hard-coded source file [silero_vad.onnx] does not exist,
    either script prints the not-found message and exits with status 1
    before anything else is printed or attempted, and the file system is
    left exactly as it was: no file is created at any destination. *)
Theorem C3_missing_source_exits_1 onnx_load tflite_convert (m : gmap string node) :
  FS.path_exists m "silero_vad.onnx" = false ->
  let halted := (Raise (A := unit) (SystemExit 1),
                 {| fs := m; stdout := [Text "Error: silero_vad.onnx not found!"] |}) in
  convert_to_tflite_main onnx_load tflite_convert (start m) = halted /\
  convert_vad_main onnx_load (start m) = halted /\
  exit_status (fst halted) = 1%Z /\
  fs (snd halted) = m.
Proof.
  intros H. repeat split.
  - unfold convert_to_tflite_main. unfold bind at 1. unfold on_fs at 1, path_exists at 1.
    run. rewrite H. reflexivity.
  - unfold convert_vad_main. unfold bind at 1. unfold on_fs at 1, path_exists at 1.
    run. rewrite H. reflexivity.
Qed.

Lemma C3_witness :
  FS.path_exists (∅ : gmap string node) "silero_vad.onnx" = false /\
  exit_status (fst (convert_to_tflite_main load_vad convert_always (start ∅))) = 1%Z /\
  exit_status (fst (convert_vad_main load_vad (start ∅))) = 1%Z.
Proof.
  assert (H : FS.path_exists (∅ : gmap string node) "silero_vad.onnx" = false) by reflexivity.
  destruct (C3_missing_source_exits_1 load_vad convert_always ∅ H) as (H1 & H2 & H3 & _).
  rewrite H1, H2. auto.
Defined.


(** ** C4 *)




(** ** C5 *)

(** C5 as stated fails: when the conversion attempt raises, the function
    can return normally and report FallbackCopied without any file at
    the requested output path. *)
Lemma C5_counterexample :
  let r := convert_to_tflite load_vad convert_never "silero_vad.onnx" "model.tflite"
             (start model_only) in
  fst r = Ret tt /\
  reports_FallbackCopied (snd r) /\
  fs (snd r) !! "model.tflite" = None.
Proof.
  cbv zeta. split; [vm_compute; reflexivity|]. split.
  - unfold reports_FallbackCopied. rewrite list_elem_of_In. vm_compute. auto 20.
  - vm_compute. reflexivity.
Qed.

(** C5, amended.  For a source that loads: when the conversion succeeds
    the file at the requested output path holds the converted model and
    has its size, which is positive as soon as the model has a byte; when
    the attempt raises, the input path and the output path are in plain
    spelling and the fallback branch can copy to its two destinations
    as files ([fallback_can_copy]), the file is produced at the sibling
    path instead, holds the source's bytes and has the source's size,
    positive as soon as the source has a byte, and the requested output
    path, when it is none of the paths the branch writes, is left as it
    was. *)
Theorem C5_where_the_output_lands onnx_load tflite_convert
    (m : gmap string node) input_path output_path b s i o :
  loads onnx_load m input_path b s i o ->
  let r := convert_to_tflite onnx_load tflite_convert input_path output_path (start m) in
  (forall t,
     tflite_convert s (name i) (name o) [1; 1; 256; 1]%Z = inr t ->
     writable m output_path ->
     reports_Converted (snd r) /\
     fs (snd r) !! output_path = Some (File t) /\
     FS.getsize (fs (snd r)) output_path = inr (Some (length t)) /\
     (t <> [] -> 0 < length t)) /\
  (forall e,
     attempt_raises tflite_convert m s i o output_path e ->
     Str.plain input_path = true -> Str.plain output_path = true ->
     fallback_can_copy m input_path output_path ->
     reports_FallbackCopied (snd r) /\
     fs (snd r) !! sibling output_path = Some (File b) /\
     FS.getsize (fs (snd r)) (sibling output_path) = inr (Some (length b)) /\
     (b <> [] -> 0 < length b) /\
     (output_path <> sibling output_path -> output_path <> final_output ->
      output_path ∉ asset_dirs -> fs (snd r) !! output_path = m !! output_path)).
Proof.
  intros Hl r. split.
  - intros t Hc Hw. unfold r.
    rewrite (convert_to_tflite_converted onnx_load tflite_convert m input_path output_path
               b s i o t Hl Hc Hw).
    cbn [snd fs]. unfold FS.getsize. rewrite lookup_insert_eq. repeat split.
    + unfold reports_Converted. cbn [stdout]. rewrite elem_of_app, !elem_of_cons. auto.
    + destruct t; [congruence|simpl; lia].
  - intros e Ha _ _ Hcan.
    destruct (convert_to_tflite_fallback_copied onnx_load tflite_convert m input_path
                output_path b s i o e Hl Ha Hcan) as (ls & Hls & Hr).
    unfold r. rewrite Hr. cbn [snd fs]. unfold FS.getsize.
    rewrite fallback_result_sibling. repeat split.
    + unfold reports_FallbackCopied. cbn [stdout]. rewrite !elem_of_app, !elem_of_cons. auto.
    + destruct b; [congruence|simpl; lia].
    + intros H1 H2 H6. now apply fallback_result_frame.
Qed.

Lemma C5_witness :
  let r := convert_to_tflite load_vad convert_never "silero_vad.onnx" "model.tflite"
             (start model_only) in
  reports_FallbackCopied (snd r) /\
  fs (snd r) !! "model.onnx" = Some (File model_bytes) /\
  FS.getsize (fs (snd r)) "model.onnx" = inr (Some 4) /\
  fs (snd r) !! "model.tflite" = None.
Proof.
  destruct (C5_where_the_output_lands load_vad convert_never model_only
              "silero_vad.onnx" "model.tflite" _ _ _ _ model_only_loads) as (_ & H).
  destruct (H _ (raises_toolchain convert_never model_only vad_session _ _ "model.tflite" _ eq_refl)
              eq_refl eq_refl model_only_can_copy) as (H1 & H2 & H3 & _ & H5).
  split; [exact H1|split; [exact H2|split; [exact H3|]]].
  rewrite H5; [reflexivity|discriminate|discriminate|].
  rewrite elem_of_asset_dirs. intros [H0|[H0|H0]]; discriminate H0.
Defined.

(** ** C6 *)



(** ** C7 *)

(** C7.  Running [convert_to_tflite] a second time with the same
    arguments, on the file system the first run left and with the input
    file still holding the bytes it held before the first run, changes
    nothing: after the second run every file and directory is what it
    was after the first, byte for byte, and the second run ends as the
    first did (returns, or raises the same exception).  This holds for
    runs that convert, for runs that fall back and for runs that raise;
    the file system the first run starts from is one where every entry
    lives in an existing directory, as file systems are. *)
Theorem C7_second_run_changes_nothing onnx_load tflite_convert
    (m : gmap string node) input_path output_path :
  well_formed m ->
  let r1 := convert_to_tflite onnx_load tflite_convert input_path output_path (start m) in
  fs (snd r1) !! input_path = m !! input_path ->
  let r2 := convert_to_tflite onnx_load tflite_convert input_path output_path
              (start (fs (snd r1))) in
  fs (snd r2) = fs (snd r1) /\
  (forall p, fs (snd r2) !! p = fs (snd r1) !! p) /\
  fst r2 = fst r1.
Proof.
  intros Hwf r1 Hsame r2.
  cut (fs (snd r2) = fs (snd r1) /\ fst r2 = fst r1).
  { intros [H1 H2]. split; [exact H1|]. split; [|exact H2]. intros p. now rewrite H1. }
  destruct (convert_to_tflite_loads_or_unchanged onnx_load tflite_convert m
              input_path output_path) as [(b & s & i & o & Hl)|Hsame_fs].
  2: { fold r1 in Hsame_fs. unfold r2. rewrite Hsame_fs. fold r1. now split. }
  assert (Hl1 : loads onnx_load (fs (snd r1)) input_path b s i o).
  { destruct Hl as [Hf Hs Hi Ho]. split; try assumption. now rewrite Hsame. }
  destruct (conversion_attempt_cases tflite_convert s i o output_path m)
    as [(t & Hc & Hw)|(e & Ha)].
  - (* the first run converts *)
    assert (Hr1 := convert_to_tflite_converted onnx_load tflite_convert m input_path
                     output_path b s i o t Hl Hc Hw).
    fold r1 in Hr1.
    assert (Hfs1 : fs (snd r1) = <[output_path := File t]> m) by now rewrite Hr1.
    assert (Hw1 : writable (fs (snd r1)) output_path).
    { destruct Hw as (Hnil & Hp & Hnd). rewrite Hfs1. split; [exact Hnil|]. split.
      - apply (grows_resolve_parent m); [|exact Hp]. apply grows_insert_file, Hnd.
      - rewrite lookup_insert_eq. discriminate. }
    assert (Hr2 := convert_to_tflite_converted onnx_load tflite_convert (fs (snd r1))
                     input_path output_path b s i o t Hl1 Hc Hw1).
    fold r2 in Hr2. rewrite Hr2. cbn [fst snd fs]. split.
    + rewrite Hfs1. apply insert_insert_eq.
    + now rewrite Hr1.
  - (* the first run falls back *)
    assert (Hr1 := convert_to_tflite_fallback_calls onnx_load tflite_convert m input_path
                     output_path b s i o e Hl Ha).
    cbv zeta in Hr1. fold r1 in Hr1. symmetry in Hr1.
    assert (Ha1 : exists e', attempt_raises tflite_convert (fs (snd r1)) s i o output_path e').
    { destruct (conversion_attempt_cases tflite_convert s i o output_path (fs (snd r1)))
        as [(t & Hc & Hw1)|H]; [exfalso|exact H].
      destruct Ha as [e Hc'|t' e Hc' Hwf']; [congruence|].
      revert Hw1. apply (not_writable_persists input_path output_path m (fst r1)); trivial.
      intros Hw. rewrite (write_file_writable m output_path t' Hw) in Hwf'. discriminate. }
    destruct Ha1 as [e' Ha1].
    assert (Hr2 := convert_to_tflite_fallback_calls onnx_load tflite_convert (fs (snd r1))
                     input_path output_path b s i o e' Hl1 Ha1).
    cbv zeta in Hr2. fold r2 in Hr2.
    rewrite (fallback_calls_again _ _ _ _ _ Hr1) in Hr2.
    injection Hr2 as H1 H2. now split.
Qed.

Lemma C7_witness :
  let r1 := convert_to_tflite load_vad convert_never "silero_vad.onnx" "model.tflite"
              (start model_only) in
  let r2 := convert_to_tflite load_vad convert_never "silero_vad.onnx" "model.tflite"
              (start (fs (snd r1))) in
  fs (snd r1) !! "model.onnx" = Some (File model_bytes) /\
  fs (snd r2) = fs (snd r1) /\
  fst r2 = Ret tt.
Proof.
  assert (Hsame : fs (snd (convert_to_tflite load_vad convert_never "silero_vad.onnx"
                             "model.tflite" (start model_only))) !! "silero_vad.onnx"
                  = model_only !! "silero_vad.onnx") by (vm_compute; reflexivity).
  destruct (C7_second_run_changes_nothing load_vad convert_never model_only
              "silero_vad.onnx" "model.tflite" model_only_well_formed Hsame)
    as (H1 & _ & H3).
  split; [vm_compute; reflexivity|]. split; [exact H1|].
  rewrite H3. vm_compute. reflexivity.
Defined.

(** ** C8 *)

(** C8.  If the source file exists but Step 1 raises (the runtime
    rejects the file, or the session has no input or no output to
    index), the exception leaves [convert_to_tflite] from outside the
    [try]: the process ends with status 1, only the first line has been
    printed (so the fallback branch never started), and the file system
    is unchanged: no copy at any destination. *)
Theorem C8_unloadable_source_is_fatal onnx_load tflite_convert (m : gmap string node) e :
  step1_raises onnx_load m "silero_vad.onnx" e ->
  let r := convert_to_tflite_main onnx_load tflite_convert (start m) in
  FS.path_exists m "silero_vad.onnx" = true /\
  r = (Raise (Exception e),
       {| fs := m; stdout := [Text "Loading ONNX model from: silero_vad.onnx"] |}) /\
  exit_status (fst r) = 1%Z /\
  fs (snd r) = m /\
  (forall e', ~ reports_failure e' (snd r)) /\
  ~ reports_FallbackCopied (snd r).
Proof.
  intros H r.
  assert (Hex := step1_raises_path_exists _ _ _ _ H).
  assert (Hr : r = (Raise (Exception e),
       {| fs := m; stdout := [Text "Loading ONNX model from: silero_vad.onnx"] |})).
  { unfold r. rewrite convert_to_tflite_main_found by assumption.
    now rewrite (convert_to_tflite_step1_raises _ _ _ _ (start m) e H). }
  rewrite Hr. repeat split; try assumption.
  - intros e'. not_printed.
  - not_printed.
Qed.

Lemma C8_witness :
  step1_raises load_nothing model_only "silero_vad.onnx" (OnnxRuntimeError "INVALID_PROTOBUF") /\
  exit_status (fst (convert_to_tflite_main load_nothing convert_always (start model_only))) = 1%Z /\
  fs (snd (convert_to_tflite_main load_nothing convert_always (start model_only))) = model_only.
Proof.
  assert (H : step1_raises load_nothing model_only "silero_vad.onnx"
                (OnnxRuntimeError "INVALID_PROTOBUF"))
    by (eapply step1_rejected; reflexivity).
  split; [exact H|].
  destruct (C8_unloadable_source_is_fatal load_nothing convert_always model_only _ H)
    as (_ & _ & H1 & H2 & _).
  split; assumption.
Defined.


(** ** C9 *)




(** ** C10 *)



(** * Further properties *)

(** ** X1 *)

(** X1.  [convert_to_tflite] never removes anything: after any run,
    returning or raising, every entry the file system had is still
    there, a directory still a directory and a file still a file.  The
    same holds for the script as a whole. *)
Theorem X1_transcode_never_deletes onnx_load tflite_convert
    (m : gmap string node) input_path output_path :
  persists m
    (fs (snd (convert_to_tflite onnx_load tflite_convert input_path output_path (start m)))) /\
  persists m (fs (snd (convert_to_tflite_main onnx_load tflite_convert (start m)))).
Proof.
  split.
  - destruct (convert_to_tflite _ _ _ _ (start m)) as [r w'] eqn:E.
    exact (fs_steps_persists _ _ _ _
             (convert_to_tflite_acts onnx_load tflite_convert _ _ _ _ _ E)).
  - destruct (convert_to_tflite_main _ _ (start m)) as [r w'] eqn:E.
    exact (fs_steps_persists _ _ _ _
             (convert_to_tflite_main_acts onnx_load tflite_convert _ _ _ E)).
Qed.

(** ** X2 *)



(** ** X3 *)



(** ** X4 *)

(** X4.  Both functions keep the file system well formed: if every entry
    lives in a directory that exists before the run, the same is true
    after it, whether the run returns or raises. *)
Theorem X4_well_formed_is_kept onnx_load tflite_convert
    (m : gmap string node) input_path output_path :
  well_formed m ->
  well_formed
    (fs (snd (convert_to_tflite onnx_load tflite_convert input_path output_path (start m)))) /\
  well_formed (fs (snd (inspect_model onnx_load input_path (start m)))).
Proof.
  intros Hwf. split.
  - destruct (convert_to_tflite _ _ _ _ (start m)) as [r w'] eqn:E.
    exact (fs_steps_well_formed _ _ _ _
             (convert_to_tflite_acts onnx_load tflite_convert _ _ _ _ _ E) Hwf).
  - destruct (inspect_model _ _ (start m)) as [r w'] eqn:E.
    exact (fs_steps_well_formed _ _ _ _ (inspect_model_acts onnx_load _ _ _ _ E) Hwf).
Qed.

Lemma X4_witness :
  well_formed
    (fs (snd (convert_to_tflite load_vad convert_never "silero_vad.onnx" "model.tflite"
                (start model_only)))) /\
  well_formed (fs (snd (inspect_model load_vad "silero_vad.onnx" (start model_only)))).
Proof.
  exact (X4_well_formed_is_kept load_vad convert_never model_only "silero_vad.onnx"
           "model.tflite" model_only_well_formed).
Defined.

(** ** X5 *)


(** ** X6 *)

(** X6.  [inspect_model] on a path without [.onnx] cannot succeed: the
    replaced path is the input path itself, so once the session is
    loaded and the descriptors are printed, [shutil.copy] raises
    [SameFileError].  The exception leaves the function (exit status 1),
    nothing is written and neither the copy nor the size is reported. *)
Theorem X6_inspection_needs_onnx_in_the_path onnx_load (m : gmap string node)
    input_path b s :
  m !! input_path = Some (File b) ->
  onnx_load b = inr s ->
  ~ Str.occurs ".onnx" input_path ->
  let r := inspect_model onnx_load input_path (start m) in
  r = (Raise (Exception (SameFileError input_path input_path)),
       {| fs := m; stdout := inspection_lines input_path s |}) /\
  exit_status (fst r) = 1%Z.
Proof.
  intros Hf Hl Hno r.
  assert (Hr : r = (Raise (Exception (SameFileError input_path input_path)),
                    {| fs := m; stdout := inspection_lines input_path s |})).
  { unfold r. rewrite (inspect_model_run onnx_load m input_path b s Hf Hl). cbv zeta.
    rewrite (replace_no_occurrence ".onnx" "_model.onnx" input_path) by (discriminate || exact Hno).
    now rewrite (shutil_copy_same_file m input_path b Hf). }
  rewrite Hr. split; reflexivity.
Qed.

Lemma X6_witness :
  fst (inspect_model load_vad "vad.bin" (start bin_only))
  = Raise (Exception (SameFileError "vad.bin" "vad.bin")) /\
  fs (snd (inspect_model load_vad "vad.bin" (start bin_only))) = bin_only.
Proof.
  assert (Hno : ~ Str.occurs ".onnx" "vad.bin").
  { intros H. repeat (apply occurs_cons in H as [H|H]; [discriminate H|]).
    revert H. apply occurs_nil. discriminate. }
  destruct (X6_inspection_needs_onnx_in_the_path load_vad bin_only "vad.bin" model_bytes
              vad_session eq_refl eq_refl Hno) as [Hr _].
  rewrite Hr. split; reflexivity.
Defined.

(** ** X7 *)



(** ** X8 *)

(** X8.  The outcome [convert_to_tflite] prints tells how it ended.  A
    run returns normally exactly when it has reported Converted or
    FallbackCopied, and it never reports both; a run that raises has
    reported neither. *)
Theorem X8_outcome_tells_the_ending onnx_load tflite_convert
    (m : gmap string node) input_path output_path :
  let r := convert_to_tflite onnx_load tflite_convert input_path output_path (start m) in
  (fst r = Ret tt <-> reports_Converted (snd r) \/ reports_FallbackCopied (snd r)) /\
  ~ (reports_Converted (snd r) /\ reports_FallbackCopied (snd r)).
Proof.
  intros r.
  destruct (convert_to_tflite_outcomes onnx_load tflite_convert m input_path output_path)
    as [(H1 & H2 & H3)|[(H1 & H2 & H3 & _)|(H1 & H2 & H3 & _)]]; fold r in H1, H2, H3.
  - split; [split|]; tauto.
  - split; [split|]; tauto.
  - split; [split|]; tauto.
Qed.

(** ** X9 *)

(** X9.  The exit status of the script [convert_to_tflite.py] does tell
    a conversion from a fallback: on every file system and whatever the
    runtime and the toolchain do, the process exits with status 0
    exactly when it has reported Converted, and it never reports
    FallbackCopied. *)
Theorem X9_script_exits_0_iff_converted onnx_load tflite_convert (m : gmap string node) :
  let r := convert_to_tflite_main onnx_load tflite_convert (start m) in
  (exit_status (fst r) = 0%Z <-> reports_Converted (snd r)) /\
  (exit_status (fst r) = 0%Z \/ exit_status (fst r) = 1%Z) /\
  ~ reports_FallbackCopied (snd r).
Proof.
  intros r. unfold r.
  destruct (FS.path_exists m "silero_vad.onnx") eqn:Hex.
  2: { assert (Hr : convert_to_tflite_main onnx_load tflite_convert (start m) =
         (Raise (SystemExit 1),
          {| fs := m; stdout := [Text "Error: silero_vad.onnx not found!"] |})).
       { unfold convert_to_tflite_main. unfold bind at 1. unfold on_fs at 1, path_exists at 1.
         run. rewrite Hex. reflexivity. }
       rewrite Hr. cbn [fst snd exit_status]. split; [split|split]; auto.
       - discriminate.
       - not_printed.
       - not_printed. }
  rewrite convert_to_tflite_main_found by exact Hex.
  destruct (convert_to_tflite_cases onnx_load tflite_convert m "silero_vad.onnx"
              "silero_vad.tflite")
    as [[e Hr]|[(b & s & i & o & t & Hl & Hc & Hw & Hr)
               |(b & s & i & o & e & ls & Hl & Ha & Hls & Hr)]].
  - rewrite Hr. cbn [fst snd exit_status]. split; [split|split]; auto.
    + discriminate.
    + not_printed.
    + not_printed.
  - rewrite Hr. cbn [fst snd exit_status]. split; [split|split]; auto.
    + intros _. unfold reports_Converted. cbn [stdout].
      rewrite elem_of_app, !elem_of_cons. auto.
    + not_printed.
  - rewrite Hr.
    rewrite (fallback_copy_same_file "silero_vad.onnx" "silero_vad.tflite" e _ b)
      by (first [exact (loads_file _ _ _ _ _ _ _ Hl)|reflexivity]).
    cbn [fst snd exit_status]. split; [split|split]; auto.
    + discriminate.
    + destruct Hls as [-> | ->]; not_printed.
    + destruct Hls as [-> | ->]; not_printed.
Qed.

(** ** X10 *)

(** X10.  Whenever the sibling path is the input path, as it is for a
    pair [stem.onnx], [stem.tflite] with a stem free of dots, the
    fallback branch of [convert_to_tflite] cannot complete: the first
    copy raises [SameFileError], the exception leaves the function with
    the file system untouched, and FallbackCopied is not reported. *)
Theorem X10_fallback_onto_the_source onnx_load tflite_convert
    (m : gmap string node) input_path output_path b s i o e :
  loads onnx_load m input_path b s i o ->
  attempt_raises tflite_convert m s i o output_path e ->
  sibling output_path = input_path ->
  let r := convert_to_tflite onnx_load tflite_convert input_path output_path (start m) in
  fst r = Raise (Exception (SameFileError input_path input_path)) /\
  fs (snd r) = m /\
  reports_failure e (snd r) /\
  ~ reports_FallbackCopied (snd r) /\
  (forall stem, Str.lacks "." stem = true ->
                sibling (stem +:+ ".tflite") = stem +:+ ".onnx").
Proof.
  intros Hl Ha Heq r.
  destruct (convert_to_tflite_falls_back onnx_load tflite_convert m input_path output_path
              b s i o e Hl Ha) as (ls & Hls & Hr).
  fold r in Hr. rewrite Hr.
  rewrite (fallback_copy_same_file input_path output_path e _ b)
    by (first [exact (loads_file _ _ _ _ _ _ _ Hl)|exact Heq]).
  cbn [fst snd fs]. split; [reflexivity|]. split; [reflexivity|]. split; [|split].
  - unfold reports_failure, fallback_lines. cbn [stdout].
    rewrite !elem_of_app, !elem_of_cons. auto.
  - destruct Hls as [-> | ->]; not_printed.
  - intros stem Hstem. unfold sibling, Str.replace.
    now rewrite (replace_from_lacks_dot stem ".tflite" Hstem).
Qed.

Lemma X10_witness :
  let r := convert_to_tflite load_vad convert_never "model.onnx" "model.tflite"
             (start named_model_only) in
  fst r = Raise (Exception (SameFileError "model.onnx" "model.onnx")) /\
  fs (snd r) = named_model_only.
Proof.
  assert (Hl : loads load_vad named_model_only "model.onnx"
                 model_bytes vad_session
                 {| name := "input"; shape := [DimNone; DimNone]; type := "tensor(float)" |}
                 {| name := "output"; shape := [DimNone; DimInt 1]; type := "tensor(float)" |})
    by (split; reflexivity).
  destruct (X10_fallback_onto_the_source load_vad convert_never named_model_only
              "model.onnx" "model.tflite"
              _ _ _ _ _ Hl
              (raises_toolchain convert_never _ vad_session _ _ "model.tflite" _ eq_refl)
              eq_refl) as (H1 & H2 & _).
  split; assumption.
Defined.

(** ** X11 *)

(** X11.  The sibling path is the output path exactly when the output
    path has no [.tflite] in it; it is never longer than the output
    path; and taking the sibling of a sibling changes nothing. *)
Theorem X11_sibling_path output_path :
  (sibling output_path = output_path <-> ~ Str.occurs ".tflite" output_path) /\
  String.length (sibling output_path) <= String.length output_path /\
  sibling (sibling output_path) = sibling output_path.
Proof.
  assert (Hne : ".tflite" <> EmptyString) by discriminate.
  assert (HR : Replaced ".tflite" ".onnx" output_path (sibling output_path))
    by (apply replace_Replaced; exact Hne).
  assert (Hnone := Replaced_tflite_none_left _ _ HR).
  split; [split|split].
  - intros Heq. now rewrite Heq in Hnone.
  - intros Hno. now apply replace_no_occurrence.
  - clear Hnone. induction HR as [|s t H IH|c s t Hp H IH]; [reflexivity| |simpl; lia].
    rewrite !length_app_string. simpl. lia.
  - now apply replace_no_occurrence.
Qed.

(** ** X12 *)

(** X12.  What [convert_to_tflite] reports is true of the file system
    it leaves.  If Converted is reported, the source was loaded, the
    toolchain returned a model and the output path holds exactly its
    bytes.  If FallbackCopied is reported, the source's bytes are at the
    target of the first copy and at a target of the second, and
    [speech_world/assets/models] is a directory. *)
Theorem X12_reports_are_true onnx_load tflite_convert
    (m : gmap string node) input_path output_path :
  let r := convert_to_tflite onnx_load tflite_convert input_path output_path (start m) in
  (reports_Converted (snd r) ->
   exists b s i o t,
     loads onnx_load m input_path b s i o /\
     tflite_convert s (name i) (name o) [1; 1; 256; 1]%Z = inr t /\
     fs (snd r) !! output_path = Some (File t)) /\
  (reports_FallbackCopied (snd r) ->
   exists b d,
     m !! input_path = Some (File b) /\
     fs (snd r) !! copy_target m input_path (sibling output_path) = Some (File b) /\
     d ∈ copy_targets input_path final_output /\
     fs (snd r) !! d = Some (File b) /\
     fs (snd r) !! dir_models = Some Dir).
Proof.
  intros r.
  destruct (convert_to_tflite_outcomes onnx_load tflite_convert m input_path output_path)
    as [(H1 & H2 & H3)|[(H1 & H2 & H3 & H4)|(H1 & H2 & H3 & H4)]];
    fold r in H1, H2, H3; try fold r in H4.
  - split; intros H; contradiction.
  - split; [intros _; exact H4|intros H; contradiction].
  - split; [intros H; contradiction|intros _; exact H4].
Qed.

(** ** X13 *)



(** ** X14 *)



